(** * The CSV to SQL Server pipeline of [final.py]

    A shallow embedding of the two tasks of the DAG, [create_table_if_missed]
    (the schema ensurer) and [load_data] (the loader), and the properties
    of them that the specification states.

    What is modelled and how:
    - Python [str] is [string]; a character is a code point below 256, and
      [str.strip] and [str.lower] act on it as Python does on that range.
    - A pandas frame is an index (the row labels, [0 .. n-1] as [read_csv]
      builds it) and an ordered list of labelled columns, each column a
      map from row label to value.  Labels may repeat: [read_csv] keeps
      header names apart, but line 63 can make two of them equal.
    - A cell of the frame read from the file is a text or missing: the
      columns are taken to be of object dtype, as [read_csv] makes them
      for text.  [astype(str)] gives "nan" for a missing cell, as pandas
      does for such a column.
    - The database is a map from table names to tables, together with the
      rows of the open transaction and a trace of the driver calls.  The
      columns [id] and [loaded_at], which the server fills, are left out
      of the rows.
    - [pd.to_datetime] and the decision of the engine to take a batch are
      parameters of the development. *)

From stdpp Require Import base decidable option list strings gmap pretty.
From Stdlib Require Import Ascii String Lia.

Local Open Scope string_scope.
Local Open Scope list_scope.

(** ** Python strings *)

Module PyStr.

(** [str.isspace] on one code point below 256: U+0009..U+000D,
    U+001C..U+0020, U+0085 and U+00A0. *)
Definition isspace (c : ascii) : bool :=
  let n := nat_of_ascii c in
  (Nat.leb 9 n && Nat.leb n 13) || (Nat.leb 28 n && Nat.leb n 32)
  || Nat.eqb n 133 || Nat.eqb n 160.

(** [str.lower] on one code point below 256: A..Z and the capital letters
    U+00C0..U+00DE (U+00D7, the multiplication sign, is not a letter)
    move up by 32. *)
Definition lower_char (c : ascii) : ascii :=
  let n := nat_of_ascii c in
  if (Nat.leb 65 n && Nat.leb n 90)
     || (Nat.leb 192 n && Nat.leb n 222 && negb (Nat.eqb n 215))
  then ascii_of_nat (n + 32) else c.

Fixpoint lower (s : string) : string :=
  match s with
  | EmptyString => EmptyString
  | String c s' => String (lower_char c) (lower s')
  end.

Fixpoint lstrip (s : string) : string :=
  match s with
  | EmptyString => EmptyString
  | String c s' => if isspace c then lstrip s' else s
  end.

Fixpoint rstrip (s : string) : string :=
  match s with
  | EmptyString => EmptyString
  | String c s' =>
      match rstrip s' with
      | EmptyString => if isspace c then EmptyString else String c EmptyString
      | r => String c r
      end
  end.

(** [s.strip()] *)
Definition strip (s : string) : string := rstrip (lstrip s).

Fixpoint zeros (n : nat) : string :=
  match n with
  | O => EmptyString
  | S n' => String "0"%char (zeros n')
  end.

(** [s.zfill(w)] for a string of digits. *)
Definition zfill (w : nat) (s : string) : string :=
  zeros (w - String.length s) +:+ s.

End PyStr.

(** ** Values held by a frame *)

(** [datetime.date] *)
Record date := Date { year : nat; month : nat; day : nat }.

(** The Python objects that occur in the cells of the frame: a [str], a
    [datetime.date], the float [nan] that [read_csv] puts for a missing
    field, [pd.NaT] and [None]. *)
Inductive value :=
| VStr (s : string)
| VDate (d : date)
| VNaN
| VNaT
| VNone.

#[global] Instance date_eq_dec : EqDecision date.
Proof. solve_decision. Defined.

#[global] Instance value_eq_dec : EqDecision value.
Proof. solve_decision. Defined.

(** [date.isoformat()], which is what [str] gives for a date. *)
Definition isoformat (d : date) : string :=
  PyStr.zfill 4 (pretty (year d)) +:+ "-" +:+
  PyStr.zfill 2 (pretty (month d)) +:+ "-" +:+
  PyStr.zfill 2 (pretty (day d)).

(** [str(v)], the conversion [astype(str)] applies to every cell. *)
Definition astype_str (v : value) : string :=
  match v with
  | VStr s => s
  | VDate d => isoformat d
  | VNaN => "nan"
  | VNaT => "NaT"
  | VNone => "None"
  end.

(** [pd.notnull] on one cell. *)
Definition notnull (v : value) : bool :=
  match v with
  | VNaN | VNaT | VNone => false
  | VStr _ | VDate _ => true
  end.

(** ** Frames *)

(** A column: the value at each row label. *)
Definition Series := nat → value.

Record DataFrame := {
  index : list nat;
  data : list (string * Series)
}.

(** [df.columns] *)
Definition columns (df : DataFrame) : list string := (data df).*1.

(** The values of a column, in index order. *)
Definition values (df : DataFrame) (s : Series) : list value := s <$> index df.

(** A record as [itertuples(index=False, name=None)] yields it: a plain
    tuple of the cells of one row. *)
Abbreviation record := (list value).

(** ** Exceptions *)

Inductive exn :=
| ValueError_missing (missing : gset string) (found : list string)
    (* line 68: "CSV missing columns: {missing}. Found: {found}" *)
| ValueError_duplicate_keys
    (* [pd.to_datetime] handed a frame instead of a column *)
| AttributeError_str
    (* a frame has no [.str] accessor *)
| KeyError (label : string)
| pyodbc_connect_Error
    (* [pyodbc.connect] fails *)
| pyodbc_executemany_Error
    (* [executemany] refused by the driver or by the engine *).

#[global] Instance exn_bind : MBind (sum exn) :=
  λ A B f m, match m with inl e => inl e | inr a => f a end.
#[global] Instance exn_ret : MRet (sum exn) := λ A a, inr a.
#[global] Instance exn_fmap : FMap (sum exn) :=
  λ A B f m, match m with inl e => inl e | inr a => inr (f a) end.

(** ** Frame operations used by the loader *)

(** The columns a label names. *)
Definition named (label : string) (df : DataFrame) : list (string * Series) :=
  filter (λ c, c.1 = label) (data df).

(** [df[label]] is a column when the label names exactly one, and a frame
    when it names several. *)
Inductive selection :=
| OneSeries (s : Series)
| SubFrame (cols : list (string * Series)).

Definition getitem (label : string) (df : DataFrame) : exn + selection :=
  match named label df with
  | [] => inl (KeyError label)
  | [c] => inr (OneSeries c.2)
  | cs => inr (SubFrame cs)
  end.

(** [df[[l1, ..., ln]]]: the columns named by each label in turn. *)
Fixpoint getitem_list (labels : list string) (df : DataFrame)
  : exn + list (string * Series) :=
  match labels with
  | [] => inr []
  | l :: ls =>
      match named l df with
      | [] => inl (KeyError l)
      | cs => rest ← getitem_list ls df; mret (cs ++ rest)
      end
  end.

(** [df[label] = s]: every column of that name is replaced; a new label
    is appended as the last column. *)
Definition setitem (label : string) (s : Series) (df : DataFrame) : DataFrame :=
  {| index := index df;
     data := if bool_decide (label ∈ columns df)
             then (λ c, if bool_decide (c.1 = label) then (label, s) else c) <$> data df
             else data df ++ [(label, s)] |}.

(** [df[mask]] for a boolean column [mask]. *)
Definition filter_rows (mask : nat → bool) (df : DataFrame) : DataFrame :=
  {| index := filter (λ i, mask i = true) (index df); data := data df |}.

(** [df.head(n)] *)
Definition head (n : nat) (df : DataFrame) : DataFrame :=
  {| index := take n (index df); data := data df |}.

(** [df.where(pd.notnull(df), None)] *)
Definition where_notnull (df : DataFrame) : DataFrame :=
  {| index := index df;
     data := (λ c, (c.1, λ i, if notnull (c.2 i) then c.2 i else VNone)) <$> data df |}.

(** [list(df.itertuples(index=False, name=None))] *)
Definition itertuples (df : DataFrame) : list record :=
  (λ i, (λ c, c.2 i) <$> data df) <$> index df.

(** ** Preparation of the records: lines 63 to 81 of [load_data] *)

Definition expected : gset string :=
  {[ "customer_name"; "address"; "birth_date" ]}.

(** Line 63: [str(c).strip().lower()] for every label. *)
Definition normalize (c : string) : string := PyStr.lower (PyStr.strip c).

Definition normalize_columns (df : DataFrame) : DataFrame :=
  {| index := index df; data := (λ c, (normalize c.1, c.2)) <$> data df |}.

Section Prepare.

(** [pd.to_datetime(column, errors="coerce")] then [.dt.date], for one
    cell of the column: the calendar date, or nothing where pandas gives
    [NaT].  The whole column is an argument because pandas may settle
    the date format by looking at the column. *)
Variable to_datetime : list value → value → option date.

Definition to_date_series (df : DataFrame) (s : Series) : Series :=
  λ i, match to_datetime (values df s) (s i) with
       | Some d => VDate d
       | None => VNaT
       end.

(** Lines 63 to 79: the frame the records are read from. *)
Definition prepare_frame (df : DataFrame) (run_id : string) : exn + DataFrame :=
  let df := normalize_columns df in
  let missing := expected ∖ list_to_set (columns df) in
  if bool_decide (missing ≠ ∅)
  then inl (ValueError_missing missing (columns df))
  else
    cols ← getitem_list ["customer_name"; "address"; "birth_date"] df;
    let df := {| index := index df; data := cols |} in
    sel ← getitem "birth_date" df;
    birth ← match sel with
            | OneSeries s => inr (to_date_series df s)
            | SubFrame _ => inl ValueError_duplicate_keys
            end;
    let df := setitem "birth_date" birth df in
    let df := setitem "airflow_run_id" (λ _, VStr run_id) df in
    sel ← getitem "customer_name" df;
    name ← match sel with
           | OneSeries s => inr (λ i, VStr (PyStr.strip (astype_str (s i))))
           | SubFrame _ => inl AttributeError_str
           end;
    let df := setitem "customer_name" name df in
    (* line 76 reads back the column just assigned *)
    let df := filter_rows (λ i, bool_decide (name i ≠ VStr "")) df in
    let df := head 50 df in
    mret (where_notnull df).

(** Line 81. *)
Definition prepare (df : DataFrame) (run_id : string) : exn + list record :=
  itertuples <$> prepare_frame df run_id.

End Prepare.

(** The frame [pd.read_csv] builds from the header fields and the parsed
    rows of the file: a range index, one column per header field, and
    [nan] where a row has no field for a column. *)
Definition frame_of_rows (header : list string) (rows : list (list value)) : DataFrame :=
  {| index := seq 0 (List.length rows);
     data := imap (λ j h, (h, λ i, default VNaN (rows !! i ≫= (.!! j)))) header |}.

(** ** The database *)

Definition CONN_ID : string := "mmsql_docker".
Definition TARGET_TABLE : string := "dbo.uinque_values".

Inductive sql_type :=
| INT_IDENTITY_PRIMARY_KEY
| NVARCHAR (n : nat)
| DATE
| DATETIME2_DEFAULT_SYSDATETIME.

Record column_def := {
  col_name : string;
  col_type : sql_type;
  nullable : bool
}.

#[global] Instance sql_type_eq_dec : EqDecision sql_type.
Proof. solve_decision. Defined.

#[global] Instance column_def_eq_dec : EqDecision column_def.
Proof. solve_decision. Defined.

(** A table: its columns and the committed rows, oldest first.  A row is
    kept as the tuple that was inserted; [id] and [loaded_at] are given
    by the server and are not modelled. *)
Record table := {
  schema : list column_def;
  rows : list record
}.

(** The driver calls made on the server, oldest first. *)
Inductive db_call :=
| Connect
| Execute_create_if_missing
| Executemany (batch : list record)
| Commit                            (* [cn.commit()] *)
| Exit_commit                       (* leaving [with] normally, autocommit off *)
| Exit_rollback                     (* leaving [with] by an exception, autocommit off *).

#[global] Instance db_call_eq_dec : EqDecision db_call.
Proof. solve_decision. Defined.

Record database := {
  reachable : bool;                (* does [pyodbc.connect] succeed *)
  tables : gmap string table;
  uncommitted : list record;       (* rows of the open transaction *)
  ddl_executed : nat;              (* CREATE TABLE statements the engine ran *)
  calls : list db_call
}.

(** The rows of the destination table. *)
Definition target_rows (d : database) : list record :=
  match tables d !! TARGET_TABLE with
  | Some t => rows t
  | None => []
  end.

(** ** Logging *)

Inductive log_record :=
| Loading_data                       (* line 58 *)
| Missing_columns_check              (* line 61 *)
| Prepared (n : nat)                 (* line 82 *)
| No_records                         (* line 85 *)
| Inserted (done total : nat)        (* line 105 *)
| Done (total : nat)                 (* line 107 *).

#[global] Instance log_record_eq_dec : EqDecision log_record.
Proof. solve_decision. Defined.

(** ** The monad of a task: state and exceptions *)

Record world := {
  db : database;
  logs : list log_record
}.

Definition M (A : Type) : Type := world → (exn + A) * world.

#[global] Instance M_ret : MRet M := λ A a w, (inr a, w).
#[global] Instance M_bind : MBind M :=
  λ A B f m w, match m w with
               | (inl e, w') => (inl e, w')
               | (inr a, w') => f a w'
               end.

Definition raise {A} (e : exn) : M A := λ w, (inl e, w).

Definition lift {A} (r : exn + A) : M A := λ w, (r, w).

Definition logger_info (m : log_record) : M unit :=
  λ w, (inr (), {| db := db w; logs := logs w ++ [m] |}).

Definition get_db : M database := λ w, (inr (db w), w).

Definition put_db (d : database) : M unit :=
  λ w, (inr (), {| db := d; logs := logs w |}).

Definition called (c : db_call) (d : database) : database :=
  {| reachable := reachable d; tables := tables d;
     uncommitted := uncommitted d; ddl_executed := ddl_executed d;
     calls := calls d ++ [c] |}.

(** [for x in xs: body(x)]: an exception leaves the loop. *)
Fixpoint for_each {A} (xs : list A) (body : A → M unit) : M unit :=
  match xs with
  | [] => mret ()
  | x :: xs' => _ ← body x; for_each xs' body
  end.

(** [range(start, stop, step)] for a positive step. *)
Definition range (start stop step : nat) : list nat :=
  (λ k, start + k * step) <$> seq 0 (Nat.div (stop - start + (step - 1)) step).

(** [l[i:j]] *)
Definition slice {A} (l : list A) (i j : nat) : list A := take (j - i) (drop i l).

(** ** The driver *)

(** [with pyodbc.connect(conn_str, timeout=30) as cn: body].  A new
    connection has an empty transaction.  On the way out pyodbc ends the
    transaction when autocommit is off: it commits after a normal exit
    and rolls back after an exception, which is raised again. *)
Definition set_uncommitted (u : list record) (d : database) : database :=
  {| reachable := reachable d; tables := tables d; uncommitted := u;
     ddl_executed := ddl_executed d; calls := calls d |}.

Definition append_rows (new : list record) (t : table) : table :=
  {| schema := schema t; rows := rows t ++ new |}.

Definition end_commit (c : db_call) (d : database) : database :=
  {| reachable := reachable d;
     tables := alter (append_rows (uncommitted d)) TARGET_TABLE (tables d);
     uncommitted := [];
     ddl_executed := ddl_executed d;
     calls := calls d ++ [c] |}.

Definition end_rollback (d : database) : database :=
  called Exit_rollback (set_uncommitted [] d).

Definition connect : M unit :=
  d ← get_db;
  if reachable d
  then put_db (called Connect (set_uncommitted [] d))
  else raise pyodbc_connect_Error.

Definition with_connection {A} (autocommit : bool) (body : M A) : M A :=
  λ w, match connect w with
       | (inl e, w1) => (inl e, w1)
       | (inr _, w1) =>
           match body w1 with
           | (inr a, w2) =>
               (inr a, if autocommit then w2
                       else {| db := end_commit Exit_commit (db w2); logs := logs w2 |})
           | (inl e, w2) =>
               (inl e, if autocommit then w2
                       else {| db := end_rollback (db w2); logs := logs w2 |})
           end
       end.

(** [cn.commit()] *)
Definition commit : M unit :=
  d ← get_db; put_db (end_commit Commit d).

(** ** The schema ensurer: [create_table_if_missed] *)

(** Lines 40 to 45. *)
Definition target_schema : list column_def :=
  [ {| col_name := "id"; col_type := INT_IDENTITY_PRIMARY_KEY; nullable := false |};
    {| col_name := "customer_name"; col_type := NVARCHAR 150; nullable := false |};
    {| col_name := "address"; col_type := NVARCHAR 250; nullable := true |};
    {| col_name := "birth_date"; col_type := DATE; nullable := true |};
    {| col_name := "airflow_run_id"; col_type := NVARCHAR 250; nullable := true |};
    {| col_name := "loaded_at"; col_type := DATETIME2_DEFAULT_SYSDATETIME; nullable := true |} ].

(** [cur.execute(sql)] for the statement of lines 37 to 47: the engine
    creates the table when [OBJECT_ID] finds none of that name. *)
Definition execute_create_if_missing : M unit :=
  d ← get_db;
  let d := called Execute_create_if_missing d in
  match tables d !! TARGET_TABLE with
  | Some _ => put_db d
  | None =>
      put_db {| reachable := reachable d;
                tables := <[TARGET_TABLE := {| schema := target_schema; rows := [] |}]> (tables d);
                uncommitted := uncommitted d;
                ddl_executed := S (ddl_executed d);
                calls := calls d |}
  end.

Definition create_table_if_missed : M unit :=
  with_connection true execute_create_if_missing.

(** ** The loader: [load_data] *)

Section Loader.

Variable to_datetime : list value → value → option date.

(** Whether the engine takes a batch, given the rows the table holds
    (those of the open transaction included): constraints, conversions
    and the state of the link are the engine's business. *)
Variable engine_accepts : list record → list record → bool.

(** [cur.executemany(insert_sql, batch)].  The statement of lines 90 and
    91 has four parameter markers, and the driver refuses a tuple of
    another length.  Rows of a refused batch are left out of the
    transaction: they would be rolled back with it. *)
Definition batch_ok (held batch : list record) : bool :=
  forallb (λ r, Nat.eqb (List.length r) 4) batch && engine_accepts held batch.

Definition executemany (batch : list record) : M unit :=
  d ← get_db;
  let d := called (Executemany batch) d in
  _ ← put_db d;
  match tables d !! TARGET_TABLE with
  | None => raise pyodbc_executemany_Error
  | Some t =>
      if batch_ok (rows t ++ uncommitted d) batch
      then put_db (set_uncommitted (uncommitted d ++ batch) d)
      else raise pyodbc_executemany_Error
  end.

Definition batch_size : nat := 50.

(** Lines 101 to 105: the body of the loop. *)
Definition insert_batch (records : list record) (i : nat) : M unit :=
  let total := List.length records in
  let batch := slice records i (i + batch_size) in
  _ ← executemany batch;
  _ ← commit;
  logger_info (Inserted (Nat.min (i + batch_size) total) total).

(** Lines 94 to 107. *)
Definition insert_records (records : list record) : M unit :=
  let total := List.length records in
  with_connection false (
    _ ← for_each (range 0 total batch_size) (insert_batch records);
    logger_info (Done total)).

Definition load_data (df : DataFrame) (run_id : string) : M unit :=
  _ ← logger_info Loading_data;
  _ ← logger_info Missing_columns_check;
  records ← lift (prepare to_datetime df run_id);
  _ ← logger_info (Prepared (List.length records));
  match records with
  | [] => logger_info No_records
  | _ => insert_records records
  end.

End Loader.

(** The DAG: [create_table >> load_csv].  The loader runs only after the
    schema ensurer has returned. *)
Definition dag_run to_datetime engine_accepts (df : DataFrame) (run_id : string) : M unit :=
  _ ← create_table_if_missed;
  load_data to_datetime engine_accepts df run_id.

(** ** The prepared records, row by row *)

(** A second description of lines 63 to 81, by the rows of the file: it
    is proved equal to [prepare] below. *)

Section ByRows.

Variable to_datetime : list value → value → option date.

(** What line 79 makes of a cell. *)
Definition null (v : value) : value := if notnull v then v else VNone.

(** The trimmed customer_name of row [i] (line 75). *)
Definition clean_name (sN : Series) (i : nat) : string :=
  PyStr.strip (astype_str (sN i)).

(** The rows that survive cleaning, in file order. *)
Definition surviving (sN : Series) (idx : list nat) : list nat :=
  filter (λ i, clean_name sN i ≠ "") idx.

(** The record of row [i], from the customer_name column [sN], the
    address columns [csa] and the birth_date column [sB] of the file. *)
Definition row_tuple (idx : list nat) (sN : Series) (csa : list (string * Series))
    (sB : Series) (run_id : string) (i : nat) : record :=
  VStr (clean_name sN i)
  :: ((λ c, null (c.2 i)) <$> csa)
  ++ [ match to_datetime (sB <$> idx) (sB i) with
       | Some d => VDate d
       | None => VNone
       end;
       VStr run_id ].

Definition prepare_by_rows (df : DataFrame) (run_id : string) : exn + list record :=
  let ndf := normalize_columns df in
  let missing := expected ∖ list_to_set (columns ndf) in
  if bool_decide (missing ≠ ∅)
  then inl (ValueError_missing missing (columns ndf))
  else
    match named "customer_name" ndf, named "address" ndf, named "birth_date" ndf with
    | [], _, _ => inl (KeyError "customer_name")
    | _ :: _, [], _ => inl (KeyError "address")
    | _ :: _, _ :: _, [] => inl (KeyError "birth_date")
    | _ :: _, _ :: _, _ :: _ :: _ => inl ValueError_duplicate_keys
    | [cN], csa, [cB] =>
        inr (row_tuple (index df) cN.2 csa cB.2 run_id
               <$> take 50 (surviving cN.2 (index df)))
    | _ :: _ :: _, _ :: _, [_] => inl AttributeError_str
    end.

(** The columns of the file under their normalized names. *)
Definition column_of (label : string) (df : DataFrame) : Series :=
  match named label (normalize_columns df) with
  | c :: _ => c.2
  | [] => λ _, VNaN
  end.

Definition name_column (df : DataFrame) : Series := column_of "customer_name" df.
Definition birth_column (df : DataFrame) : Series := column_of "birth_date" df.
Definition address_columns (df : DataFrame) : list (string * Series) :=
  named "address" (normalize_columns df).

(** The rows of the file that survive cleaning, in file order. *)
Definition survivors (df : DataFrame) : list nat :=
  surviving (name_column df) (index df).


(** The record of row [i] of the file. *)
Definition record_of (df : DataFrame) (run_id : string) (i : nat) : record :=
  row_tuple (index df) (name_column df) (address_columns df) (birth_column df) run_id i.

Definition records_of (df : DataFrame) (run_id : string) : list record :=
  record_of df run_id <$> take 50 (survivors df).

End ByRows.

(** ** A load of one batch, in closed form *)

(** What [insert_records] comes to when the records make one batch: it
    is proved equal to it below. *)
Definition single_batch (engine_accepts : list record → list record → bool)
    (records : list record) (w : world) : (exn + ()) * world :=
  let total := List.length records in
  if reachable (db w) then
    let d := called (Executemany records) (called Connect (set_uncommitted [] (db w))) in
    match tables (db w) !! TARGET_TABLE with
    | Some t =>
        if batch_ok engine_accepts (rows t) records
        then (inr (),
              {| db := end_commit Exit_commit
                         (end_commit Commit (set_uncommitted records d));
                 logs := logs w ++ [Inserted total total; Done total] |})
        else (inl pyodbc_executemany_Error,
              {| db := end_rollback d; logs := logs w |})
    | None =>
        (inl pyodbc_executemany_Error,
         {| db := end_rollback d; logs := logs w |})
    end
  else (inl pyodbc_connect_Error, w).

(** ** The batch loop, batch by batch *)

(** The batch of the pass number [k] of the loop (from 0): [i] is
    [k * batch_size] there. *)
Definition nth_batch (records : list record) (k : nat) : list record :=
  slice records (k * batch_size) (k * batch_size + batch_size).

(** The driver calls of the first [j] passes. *)
Definition batch_calls (records : list record) (j : nat) : list db_call :=
  flat_map (λ k, [Executemany (nth_batch records k); Commit]) (seq 0 j).

(** The state before pass [j] of a loop that started on a table holding
    [rows0], after the calls [calls0]. *)
Definition loop_inv (records rows0 : list record) (calls0 : list db_call)
    (j : nat) (w : world) : Prop :=
  ∃ t, tables (db w) !! TARGET_TABLE = Some t
       ∧ rows t = rows0 ++ take (j * batch_size) records
       ∧ uncommitted (db w) = []
       ∧ calls (db w) = calls0 ++ batch_calls records j.

(** Every required name is the normalized name of exactly one column. *)
Definition unique_header (df : DataFrame) : Prop :=
  List.length (named "customer_name" (normalize_columns df)) = 1
  ∧ List.length (named "address" (normalize_columns df)) = 1
  ∧ List.length (named "birth_date" (normalize_columns df)) = 1.

(** The driver calls and log records counted by the properties. *)
Definition is_executemany (c : db_call) : bool :=
  match c with Executemany _ => true | _ => false end.

Definition is_commit (c : db_call) : bool :=
  match c with Commit => true | _ => false end.

Definition is_inserted (m : log_record) : bool :=
  match m with Inserted _ _ => true | _ => false end.

Definition count {A} (p : A → bool) (l : list A) : nat :=
  List.length (List.filter p l).


(** ** The connection string: [build_pyodbc_conn_str] *)

(** A value of the extras of a connection, which Airflow reads from
    JSON: a text, an integer, a boolean or null.  Numbers with a
    fraction, lists and objects are left out. *)
Inductive scalar :=
| SStr (s : string)
| SInt (z : Z)
| SBool (b : bool)
| SNull.

(** What an f-string writes for such a value. *)
Definition format_scalar (v : scalar) : string :=
  match v with
  | SStr s => s
  | SInt z => pretty z
  | SBool true => "True"
  | SBool false => "False"
  | SNull => "None"
  end.

(** What an f-string writes for a field that may be [None]. *)
Definition format_field (o : option string) : string :=
  match o with
  | Some s => s
  | None => "None"
  end.

(** An Airflow connection, as [BaseHook.get_connection] returns it. *)
Record Connection := {
  host : option string;
  port : option Z;
  conn_schema : option string;      (* [c.schema] *)
  login : option string;
  password : option string;
  extra_dejson : gmap string scalar
}.

(** [c.port or 1433]: [None] and 0 are false. *)
Definition port_or_default (c : Connection) : Z :=
  match port c with
  | Some p => if decide (p = 0%Z) then 1433%Z else p
  | None => 1433%Z
  end.

(** [c.extra_dejson or {}]: an empty dict is false. *)
Definition extra_or_empty (c : Connection) : gmap string scalar :=
  if decide (extra_dejson c = ∅) then ∅ else extra_dejson c.

(** Lines 18 to 31: the string built from the connection [c]. *)
Definition conn_str (c : Connection) : string :=
  let extra := extra_or_empty c in
  let driver := default (SStr "ODBC Driver 18 for SQL Server") (extra !! "driver") in
  let encrypt := default (SStr "no") (extra !! "Encrypt") in
  let trust := default (SStr "yes") (extra !! "TrustServerCertificate") in
  "DRIVER={" +:+ format_scalar driver +:+ "};"
  +:+ "SERVER=" +:+ format_field (host c) +:+ "," +:+ pretty (port_or_default c) +:+ ";"
  +:+ "DATABASE=" +:+ format_field (conn_schema c) +:+ ";"
  +:+ "UID=" +:+ format_field (login c) +:+ ";"
  +:+ "PWD=" +:+ format_field (password c) +:+ ";"
  +:+ "Encrypt=" +:+ format_scalar encrypt +:+ ";"
  +:+ "TrustServerCertificate=" +:+ format_scalar trust +:+ ";".

(** [build_pyodbc_conn_str(conn_id)], over the connections Airflow
    knows; there is no string when [get_connection] finds none of that
    name and raises. *)
Definition build_pyodbc_conn_str (connections : gmap string Connection)
    (conn_id : string) : option string :=
  conn_str <$> connections !! conn_id.

(** ** Whitespace at the ends of a string *)

Fixpoint all_space (s : string) : bool :=
  match s with
  | EmptyString => true
  | String c s' => PyStr.isspace c && all_space s'
  end.

Definition first_char (s : string) : option ascii :=
  match s with
  | EmptyString => None
  | String c _ => Some c
  end.

Fixpoint last_char (s : string) : option ascii :=
  match s with
  | EmptyString => None
  | String c EmptyString => Some c
  | String _ s' => last_char s'
  end.

(** No whitespace at either end. *)
Definition trimmed (s : string) : Prop :=
  (∀ c, first_char s = Some c → PyStr.isspace c = false)
  ∧ (∀ c, last_char s = Some c → PyStr.isspace c = false).

(** The batches the loop of lines 101 and 102 cuts the records into. *)
Definition batches (records : list record) : list (list record) :=
  (λ i, slice records i (i + batch_size))
    <$> range 0 (List.length records) batch_size.

(** ** Sample inputs *)

(** A parser that knows one date. *)
Definition parse_sample (column : list value) (v : value) : option date :=
  match v with
  | VStr "2020-01-05" => Some (Date 2020 1 5)
  | _ => None
  end.

Definition accept_all (held batch : list record) : bool := true.

(** An engine that refuses a batch once the table holds 50 rows. *)
Definition accept_below_50 (held batch : list record) : bool :=
  Nat.ltb (List.length held) 50.

Definition sample_header : list string :=
  ["Customer_Name "; " ADDRESS"; "birth_date"].

(** Four rows: a plain one, one with a blank name, one with no name and
    a date that does not parse, one with no date. *)
Definition sample_file : DataFrame :=
  frame_of_rows sample_header
    [ [VStr " Ann "; VStr "1 Main St"; VStr "2020-01-05"];
      [VStr "   "; VStr "2 Side St"; VStr "2020-01-05"];
      [VNaN; VNaN; VStr "not a date"];
      [VStr "Bob"; VStr "3 High St"; VNaN] ].

(** Sixty rows, every seventh with a blank name. *)
Definition big_file : DataFrame :=
  frame_of_rows sample_header
    ((λ k, [VStr (if Nat.eqb (k `mod` 7) 0 then "  " else "ann");
            VStr "x"; VStr "2020-01-05"]) <$> seq 0 60).

Definition no_birth_file : DataFrame :=
  frame_of_rows ["customer_name"; "address"] [[VStr "Ann"; VStr "x"]].

Definition empty_file : DataFrame := frame_of_rows sample_header [].

Definition sixty_records : list record :=
  replicate 60 [VStr "ann"; VNone; VNone; VStr "run-1"].

Definition fresh_world : world :=
  {| db := {| reachable := true; tables := ∅; uncommitted := [];
              ddl_executed := 0; calls := [] |};
     logs := [] |}.

(** The world after the schema ensurer has run once. *)
Definition ready_world : world := (create_table_if_missed fresh_world).2.

(** A server that cannot be reached. *)
Definition down_world : world :=
  {| db := {| reachable := false; tables := ∅; uncommitted := [];
              ddl_executed := 0; calls := [] |};
     logs := [] |}.

(** [sample_file] with a column of notes in front. *)
Definition noted_file : DataFrame :=
  {| index := index sample_file;
     data := [] ++ ("Notes", λ _, VStr "n") :: data sample_file |}.

(** [sample_file] with its columns in the opposite order. *)
Definition reversed_file : DataFrame :=
  {| index := index sample_file; data := reverse (data sample_file) |}.

(** Headers that line 63 makes collide. *)
Definition dup_birth_file : DataFrame :=
  frame_of_rows ["customer_name"; "address"; "birth_date"; "Birth_Date"]
    [[VStr "Ann"; VStr "x"; VStr "2020-01-05"; VStr "2020-01-05"]].

Definition dup_name_file : DataFrame :=
  frame_of_rows ["customer_name"; "Customer_Name"; "address"; "birth_date"]
    [[VStr "Ann"; VStr "Ann"; VStr "x"; VStr "2020-01-05"]].

Definition dup_address_file : DataFrame :=
  frame_of_rows ["customer_name"; "address"; "Address"; "birth_date"]
    [[VStr "Ann"; VStr "x"; VStr "y"; VStr "2020-01-05"]].

(** * Properties *)

(** ** The definitions at work *)

Example strip_both_ends : PyStr.strip "  a b  " = "a b".
Proof. reflexivity. Qed.

Example strip_blank : PyStr.strip "   " = "".
Proof. reflexivity. Qed.

Example normalize_header : normalize " Customer_Name " = "customer_name".
Proof. reflexivity. Qed.

Example str_of_nan : PyStr.strip (astype_str VNaN) = "nan".
Proof. reflexivity. Qed.

Example isoformat_pads : isoformat (Date 987 1 5) = "0987-01-05".
Proof. reflexivity. Qed.

Example range_three : range 0 120 50 = [0; 50; 100].
Proof. reflexivity. Qed.

Example prepare_sample :
  prepare parse_sample sample_file "run-1"
  = inr [ [VStr "Ann"; VStr "1 Main St"; VDate (Date 2020 1 5); VStr "run-1"];
          [VStr "nan"; VNone; VNone; VStr "run-1"];
          [VStr "Bob"; VStr "3 High St"; VNone; VStr "run-1"] ].
Proof. vm_compute. reflexivity. Qed.

Example dag_run_sample :
  let r := dag_run parse_sample accept_all sample_file "run-1" fresh_world in
  r.1 = inr ()
  ∧ List.length (target_rows (db r.2)) = 3
  ∧ logs r.2 = [Loading_data; Missing_columns_check; Prepared 3;
                Inserted 3 3; Done 3].
Proof. vm_compute. repeat split; reflexivity. Qed.

(** ** Columns selected by label *)

Definition labelled (l : string) (cs : list (string * Series)) : Prop :=
  Forall (λ c, c.1 = l) cs.

Lemma named_labelled l df : labelled l (named l df).
Proof.
  unfold labelled, named. apply Forall_forall. intros c Hc.
  by apply list_elem_of_filter in Hc as [? _].
Qed.

Lemma filter_labelled_eq l cs :
  labelled l cs → filter (λ c : string * Series, c.1 = l) cs = cs.
Proof.
  induction 1 as [|c cs Hc _ IH]; [done|].
  rewrite filter_cons_True by done. by rewrite IH.
Qed.

Lemma filter_labelled_ne l l' cs :
  labelled l cs → l ≠ l' → filter (λ c : string * Series, c.1 = l') cs = [].
Proof.
  intros H Hne. induction H as [|c cs Hc _ IH]; [done|].
  rewrite filter_cons_False by congruence. done.
Qed.

Lemma replace_labelled_ne l l' (s : Series) cs :
  labelled l cs → l ≠ l' →
  (λ c : string * Series, if bool_decide (c.1 = l') then (l', s) else c) <$> cs = cs.
Proof.
  intros H Hne. induction H as [|c cs Hc _ IH]; [done|].
  rewrite fmap_cons, IH. rewrite bool_decide_eq_false_2 by congruence. done.
Qed.

Lemma labelled_fst l cs x : labelled l cs → x ∈ cs.*1 → x = l.
Proof.
  intros H Hx. apply list_elem_of_fmap in Hx as (c & -> & Hc).
  by apply (proj1 (Forall_forall _ _) H).
Qed.

Lemma setitem_in l (s : Series) idx cs :
  l ∈ cs.*1 →
  setitem l s {| index := idx; data := cs |}
  = {| index := idx;
       data := (λ c : string * Series, if bool_decide (c.1 = l) then (l, s) else c) <$> cs |}.
Proof. intros H. unfold setitem, columns. cbn. by rewrite bool_decide_eq_true_2. Qed.

Lemma setitem_notin l (s : Series) idx cs :
  l ∉ cs.*1 →
  setitem l s {| index := idx; data := cs |}
  = {| index := idx; data := cs ++ [(l, s)] |}.
Proof. intros H. unfold setitem, columns. cbn. by rewrite bool_decide_eq_false_2. Qed.

Lemma getitem_data l idx cs :
  getitem l {| index := idx; data := cs |}
  = match filter (λ c : string * Series, c.1 = l) cs with
    | [] => inl (KeyError l)
    | [c] => inr (OneSeries c.2)
    | c :: c' :: cs' => inr (SubFrame (c :: c' :: cs'))
    end.
Proof. reflexivity. Qed.

(** ** [prepare] row by row *)

Section PrepareProps.

Variable to_datetime : list value → value → option date.

Lemma prepare_unfold df run_id :
  prepare to_datetime df run_id = prepare_by_rows to_datetime df run_id.
Proof.
  unfold prepare, prepare_by_rows, prepare_frame.
  set (ndf := normalize_columns df).
  case_bool_decide as Hm; [done|].
  unfold getitem_list.
  pose proof (named_labelled "customer_name" ndf) as HN.
  pose proof (named_labelled "address" ndf) as HA.
  pose proof (named_labelled "birth_date" ndf) as HB.
  destruct (named "customer_name" ndf) as [|cN csN]; [reflexivity|].
  destruct (named "address" ndf) as [|cA csA]; [by destruct csN|].
  destruct (named "birth_date" ndf) as [|cB csB]; [by destruct csN|].
  cbn [mbind exn_bind mret exn_ret].
  remember (cN :: csN) as csn eqn:EN. remember (cA :: csA) as csa eqn:EA.
  rewrite app_nil_r, getitem_data, !filter_app.
  rewrite (filter_labelled_ne _ _ _ HN), (filter_labelled_ne _ _ _ HA) by done.
  rewrite (filter_labelled_eq _ _ HB). cbn [app].
  destruct csB as [|cB' csB]; [|by destruct csN].
  change ([cB] ++ []) with [cB].
  cbn [mbind exn_bind mret exn_ret].
  set (birth := to_date_series _ _ _).
  assert (HcB : cB.1 = "birth_date") by by inversion HB.
  rewrite setitem_in; last first.
  { rewrite !fmap_app, !elem_of_app. right; right. cbn. rewrite HcB. set_solver. }
  rewrite !fmap_app.
  rewrite (replace_labelled_ne _ _ _ _ HN), (replace_labelled_ne _ _ _ _ HA) by done.
  cbn [fmap list_fmap]. rewrite bool_decide_eq_true_2 by done.
  rewrite setitem_notin; last first.
  { rewrite !fmap_app, !elem_of_app. intros [H|[H|H]].
    - apply (labelled_fst _ _ _ HN) in H. discriminate.
    - apply (labelled_fst _ _ _ HA) in H. discriminate.
    - cbn in H. apply list_elem_of_singleton in H. discriminate. }
  rewrite getitem_data, !filter_app.
  rewrite (filter_labelled_eq _ _ HN), (filter_labelled_ne _ _ _ HA) by done.
  rewrite !filter_cons_False, !filter_nil by done.
  rewrite !app_nil_r. subst csn.
  destruct csN as [|cN' csN]; [|reflexivity].
  cbn [mbind exn_bind mret exn_ret fmap exn_fmap].
  set (name := λ i : nat, VStr _).
  assert (HcN : cN.1 = "customer_name") by by inversion HN.
  rewrite setitem_in; last first.
  { cbn. rewrite HcN. set_solver. }
  rewrite !fmap_app. cbn [fmap list_fmap]. rewrite bool_decide_eq_true_2 by done.
  rewrite (replace_labelled_ne _ _ _ _ HA) by done.
  rewrite !bool_decide_eq_false_2 by done.
  unfold itertuples, where_notnull, head, filter_rows. cbn [index data].
  f_equal. unfold surviving.
  rewrite (list_filter_iff _ (λ i, clean_name cN.2 i ≠ "")); last first.
  { intros i. rewrite bool_decide_eq_true. unfold clean_name. split; congruence. }
  apply list_fmap_ext. intros _ i _.
  rewrite !fmap_app. cbn [fmap list_fmap]. rewrite <- !list_fmap_compose.
  unfold row_tuple, name, birth, to_date_series, values, null, clean_name.
  cbn [index data fst snd notnull app compose]. rewrite <- app_assoc. cbn [app].
  f_equal. f_equal. f_equal.
  by destruct (to_datetime _ _).
Qed.

Lemma missing_iff (cols : list string) :
  expected ∖ list_to_set cols ≠ ∅ ↔ ∃ c, c ∈ expected ∧ c ∉ cols.
Proof.
  split.
  - intros H. apply set_choose_L in H as [c Hc].
    apply elem_of_difference in Hc as [Hc Hn].
    exists c. split; [done|]. by rewrite elem_of_list_to_set in Hn.
  - intros (c & Hc & Hn) H.
    assert (Hin : c ∈ expected ∖ list_to_set cols)
      by (apply elem_of_difference; split; [done|by rewrite elem_of_list_to_set]).
    rewrite H in Hin. by apply not_elem_of_empty in Hin.
Qed.

Lemma named_elem l df : named l df ≠ [] ↔ l ∈ columns df.
Proof.
  unfold named, columns. split.
  - intros H. destruct (filter _ _) as [|c cs] eqn:E; [done|].
    assert (Hc : c ∈ filter (λ c : string * Series, c.1 = l) (data df))
      by (rewrite E; left).
    apply list_elem_of_filter in Hc as [<- Hc].
    apply list_elem_of_fmap. by exists c.
  - intros H E. apply list_elem_of_fmap in H as (c & -> & Hc).
    assert (Hf : c ∈ filter (λ c' : string * Series, c'.1 = c.1) (data df))
      by by apply list_elem_of_filter.
    rewrite E in Hf. by apply not_elem_of_nil in Hf.
Qed.

Lemma length_1 {A} (l : list A) : List.length l = 1 → ∃ x, l = [x].
Proof. destruct l as [|x [|y l]]; try discriminate. by exists x. Qed.

Lemma unique_header_no_missing df :
  unique_header df →
  expected ∖ list_to_set (columns (normalize_columns df)) = ∅.
Proof.
  intros (HN & HA & HB).
  destruct (decide (expected ∖ list_to_set (columns (normalize_columns df)) = ∅))
    as [|Hne]; [done|].
  apply missing_iff in Hne as (c & Hc & Hn). exfalso. apply Hn.
  apply named_elem. unfold expected in Hc.
  apply elem_of_union in Hc as [Hc|Hc]; [apply elem_of_union in Hc as [Hc|Hc]|];
    apply elem_of_singleton in Hc as ->; intros E.
  - by rewrite E in HN.
  - by rewrite E in HA.
  - by rewrite E in HB.
Qed.

(** A frame whose header names each required column once is prepared
    without an exception. *)
Lemma prepare_unique df run_id :
  unique_header df →
  prepare to_datetime df run_id = inr (records_of to_datetime df run_id).
Proof.
  intros H. rewrite prepare_unfold. unfold prepare_by_rows.
  rewrite bool_decide_eq_false_2
    by (rewrite unique_header_no_missing by done; auto).
  unfold records_of, record_of, survivors, name_column, birth_column,
    address_columns, column_of.
  destruct H as (HN & HA & HB).
  apply length_1 in HN as [cN ->], HA as [cA ->], HB as [cB ->].
  done.
Qed.

(** Whatever [prepare] returns is the list of the records of the first
    50 surviving rows. *)
Lemma prepare_inr df run_id recs :
  prepare to_datetime df run_id = inr recs →
  recs = records_of to_datetime df run_id
  ∧ expected ∖ list_to_set (columns (normalize_columns df)) = ∅
  ∧ address_columns df ≠ []
  ∧ (∃ cN, named "customer_name" (normalize_columns df) = [cN])
  ∧ (∃ cB, named "birth_date" (normalize_columns df) = [cB]).
Proof.
  rewrite prepare_unfold. unfold prepare_by_rows.
  case_bool_decide as Hm; [done|].
  unfold records_of, record_of, survivors, name_column, birth_column,
    address_columns, column_of.
  destruct (named "customer_name" _) as [|cN [|cN' csN]];
    destruct (named "address" _) as [|cA csA];
    destruct (named "birth_date" _) as [|cB [|cB' csB]]; try done.
  intros [= <-]. eauto 10.
Qed.

End PrepareProps.


(** ** The batch loop *)

Local Open Scope nat_scope.

Lemma range_nil : range 0 0 50 = [].
Proof. reflexivity. Qed.

Lemma range_single total : 0 < total → total ≤ 50 → range 0 total 50 = [0].
Proof.
  intros H1 H2. unfold range.
  replace ((total - 0 + (50 - 1)) `div` 50) with 1; [done|].
  apply (Nat.div_unique _ 50 1 (total - 1)); lia.
Qed.

Section LoaderProps.

Variable to_datetime : list value → value → option date.
Variable engine_accepts : list record → list record → bool.

Lemma insert_records_single records w :
  records ≠ [] → List.length records ≤ 50 →
  insert_records engine_accepts records w = single_batch engine_accepts records w.
Proof.
  intros Hne Hlen. unfold insert_records, single_batch.
  assert (0 < List.length records) by (destruct records; [done|cbn; lia]).
  unfold batch_size. rewrite range_single by done.
  unfold with_connection, connect, for_each, insert_batch, executemany, commit.
  unfold slice, batch_size. rewrite drop_0, Nat.sub_0_r, take_ge by done.
  rewrite (Nat.min_r (0 + 50)) by lia.
  unfold get_db, put_db, raise, logger_info, mbind, M_bind, mret, M_ret.
  destruct w as [d lg]. cbn [db logs].
  destruct (reachable d) eqn:Hr; [|done].
  cbn [tables called set_uncommitted uncommitted db logs].
  destruct (tables d !! TARGET_TABLE) as [t|] eqn:Ht; [|done].
  rewrite app_nil_r.
  destruct (batch_ok _ _ _); [|done].
  cbn. by rewrite <- app_assoc.
Qed.

Lemma records_of_length df run_id :
  List.length (records_of to_datetime df run_id) ≤ 50.
Proof. unfold records_of. rewrite length_fmap, length_take. lia. Qed.

(** [load_data] in closed form: the preparation decides between the
    exception, the empty load and the load of one batch. *)
Lemma load_data_unfold df run_id w :
  load_data to_datetime engine_accepts df run_id w
  = match prepare to_datetime df run_id with
    | inl e =>
        (inl e, {| db := db w;
                   logs := logs w ++ [Loading_data; Missing_columns_check] |})
    | inr [] =>
        (inr (), {| db := db w;
                    logs := logs w ++ [Loading_data; Missing_columns_check;
                                       Prepared 0; No_records] |})
    | inr recs =>
        single_batch engine_accepts recs
          {| db := db w;
             logs := logs w ++ [Loading_data; Missing_columns_check;
                                Prepared (List.length recs)] |}
    end.
Proof.
  unfold load_data, logger_info, lift, mbind, M_bind. cbn [db logs].
  destruct (prepare to_datetime df run_id) as [e|recs] eqn:Hp.
  - by rewrite <- app_assoc.
  - destruct recs as [|r recs].
    + cbn. by rewrite <- !app_assoc.
    + rewrite insert_records_single; [by rewrite <- !app_assoc|done|].
      apply prepare_inr in Hp as [Hp _].
      rewrite Hp. apply records_of_length.
Qed.

(** *** One pass of the loop *)

Lemma nth_batch_take records j :
  take (j * batch_size) records ++ nth_batch records j
  = take (S j * batch_size) records.
Proof.
  unfold nth_batch, slice.
  replace (j * batch_size + batch_size - j * batch_size) with batch_size by lia.
  rewrite take_take_drop. f_equal. lia.
Qed.

Lemma batch_calls_S records j :
  batch_calls records (S j)
  = batch_calls records j ++ [Executemany (nth_batch records j); Commit].
Proof.
  unfold batch_calls. by rewrite seq_S, flat_map_app.
Qed.

Lemma insert_batch_ok records rows0 calls0 j w :
  loop_inv records rows0 calls0 j w →
  batch_ok engine_accepts (rows0 ++ take (j * batch_size) records)
    (nth_batch records j) = true →
  ∃ w', insert_batch engine_accepts records (j * batch_size) w = (inr (), w')
        ∧ loop_inv records rows0 calls0 (S j) w'.
Proof.
  intros (t & Ht & Hrows & Hu & Hc) Hok.
  unfold insert_batch, executemany, commit.
  unfold get_db, put_db, raise, logger_info, mbind, M_bind, mret, M_ret.
  destruct w as [d lg]. cbn [db logs] in *.
  cbn [tables called uncommitted]. rewrite Ht.
  rewrite Hu, Hrows, app_nil_r.
  fold (nth_batch records j). rewrite Hok.
  eexists. split; [reflexivity|].
  exists (append_rows (nth_batch records j) t).
  cbn [db end_commit set_uncommitted called tables uncommitted calls].
  rewrite lookup_alter_eq, Ht. repeat split.
  - cbn [rows append_rows app]. by rewrite Hrows, <- app_assoc, nth_batch_take.
  - rewrite Hc, batch_calls_S, <- !app_assoc. done.
Qed.

Lemma insert_batch_fail records rows0 calls0 j w :
  loop_inv records rows0 calls0 j w →
  batch_ok engine_accepts (rows0 ++ take (j * batch_size) records)
    (nth_batch records j) = false →
  insert_batch engine_accepts records (j * batch_size) w
  = (inl pyodbc_executemany_Error,
     {| db := called (Executemany (nth_batch records j)) (db w); logs := logs w |}).
Proof.
  intros (t & Ht & Hrows & Hu & Hc) Hok.
  unfold insert_batch, executemany, commit.
  unfold get_db, put_db, raise, logger_info, mbind, M_bind, mret, M_ret.
  destruct w as [d lg]. cbn [db logs] in *.
  cbn [tables called uncommitted]. rewrite Ht, Hu, Hrows, app_nil_r.
  fold (nth_batch records j). by rewrite Hok.
Qed.

(** *** The whole loop *)

Lemma loop_all_ok records rows0 calls0 n : ∀ a w,
  loop_inv records rows0 calls0 a w →
  (∀ j, a ≤ j < a + n →
     batch_ok engine_accepts (rows0 ++ take (j * batch_size) records)
       (nth_batch records j) = true) →
  ∃ w', for_each ((λ k, 0 + k * batch_size) <$> seq a n)
          (insert_batch engine_accepts records) w = (inr (), w')
        ∧ loop_inv records rows0 calls0 (a + n) w'.
Proof.
  induction n as [|n IH]; intros a w Hinv Hok.
  - exists w. rewrite Nat.add_0_r. done.
  - cbn [seq fmap list_fmap for_each]. cbn [Nat.add].
    destruct (insert_batch_ok records rows0 calls0 a w Hinv) as (w1 & E1 & Hinv1);
      [apply Hok; lia|].
    unfold mbind, M_bind. rewrite E1.
    destruct (IH (S a) w1 Hinv1) as (w' & E' & Hinv'); [intros j Hj; apply Hok; lia|].
    exists w'. split; [done|]. by replace (a + S n) with (S a + n) by lia.
Qed.

Lemma loop_fails_at records rows0 calls0 n : ∀ a w k,
  loop_inv records rows0 calls0 a w →
  a ≤ k < a + n →
  (∀ j, a ≤ j < k →
     batch_ok engine_accepts (rows0 ++ take (j * batch_size) records)
       (nth_batch records j) = true) →
  batch_ok engine_accepts (rows0 ++ take (k * batch_size) records)
    (nth_batch records k) = false →
  ∃ w1, loop_inv records rows0 calls0 k w1
        ∧ for_each ((λ k, 0 + k * batch_size) <$> seq a n)
            (insert_batch engine_accepts records) w
          = (inl pyodbc_executemany_Error,
             {| db := called (Executemany (nth_batch records k)) (db w1);
                logs := logs w1 |}).
Proof.
  induction n as [|n IH]; intros a w k Hinv Hk Hok Hbad; [lia|].
  cbn [seq fmap list_fmap for_each]. cbn [Nat.add]. unfold mbind, M_bind.
  destruct (decide (k = a)) as [->|Hne].
  - exists w. split; [done|]. by rewrite (insert_batch_fail _ _ _ _ _ Hinv Hbad).
  - destruct (insert_batch_ok records rows0 calls0 a w Hinv) as (w1 & E1 & Hinv1);
      [apply Hok; lia|].
    rewrite E1. apply (IH (S a) w1 k Hinv1); [lia| |done].
    intros j Hj. apply Hok. lia.
Qed.

Lemma batches_lt total k :
  k * batch_size < total → k < (total - 0 + (batch_size - 1)) `div` batch_size.
Proof.
  unfold batch_size. intros H.
  apply (Nat.lt_le_trans _ (S k)); [lia|].
  apply Nat.div_le_lower_bound; lia.
Qed.

Lemma connected_inv records w t :
  tables (db w) !! TARGET_TABLE = Some t →
  loop_inv records (rows t) (calls (db w) ++ [Connect]) 0
    {| db := called Connect (set_uncommitted [] (db w)); logs := logs w |}.
Proof.
  intros Ht. exists t. cbn. rewrite Ht, !app_nil_r. done.
Qed.

Lemma batches_cover total :
  total ≤ (total - 0 + (batch_size - 1)) `div` batch_size * batch_size.
Proof.
  unfold batch_size.
  pose proof (Nat.mul_succ_div_gt (total - 0 + (50 - 1)) 50). lia.
Qed.

Lemma batches_lt_inv total j :
  j < (total - 0 + (batch_size - 1)) `div` batch_size → j * batch_size < total.
Proof.
  unfold batch_size. intros H.
  pose proof (Nat.Div0.mul_div_le (total - 0 + (50 - 1)) 50). nia.
Qed.

(** When the engine takes every batch, all the records are added, by one
    [executemany] and one commit per batch. *)
Lemma insert_records_all_ok records w t :
  reachable (db w) = true →
  tables (db w) !! TARGET_TABLE = Some t →
  (∀ j, j * batch_size < List.length records →
     batch_ok engine_accepts (rows t ++ take (j * batch_size) records)
       (nth_batch records j) = true) →
  (insert_records engine_accepts records w).1 = inr ()
  ∧ target_rows (db (insert_records engine_accepts records w).2)
    = rows t ++ records
  ∧ calls (db (insert_records engine_accepts records w).2)
    = calls (db w) ++ [Connect]
      ++ batch_calls records
           ((List.length records - 0 + (batch_size - 1)) `div` batch_size)
      ++ [Exit_commit].
Proof.
  intros Hr Ht Hok.
  destruct (loop_all_ok records (rows t) (calls (db w) ++ [Connect])
              ((List.length records - 0 + (batch_size - 1)) `div` batch_size)
              0 _ (connected_inv records w t Ht))
    as (w1 & E & (t1 & Ht1 & Hrows1 & Hu1 & Hc1)).
  { intros j Hj. apply Hok. apply batches_lt_inv. lia. }
  assert (E' : insert_records engine_accepts records w
               = (inr (),
                  {| db := end_commit Exit_commit (db w1);
                     logs := logs w1 ++ [Done (List.length records)] |})).
  { unfold insert_records, with_connection, connect, get_db, put_db, logger_info.
    unfold mbind, M_bind. rewrite Hr. unfold range. by rewrite E. }
  rewrite E'. cbn [fst snd db].
  unfold target_rows. cbn [end_commit tables calls].
  rewrite lookup_alter_eq, Ht1, Hu1, Hc1. cbn [fmap option_fmap option_map append_rows rows].
  rewrite Hrows1, app_nil_r, take_ge by apply batches_cover.
  by rewrite <- !app_assoc.
Qed.

(** C4. The loop sends one [executemany] per batch of 50 records and
    commits after each.  When the insert of batch [k] (counted from 1)
    is refused after the batches before it were taken, [insert_records]
    raises the driver's exception, the destination table holds exactly
    the rows it had and the records of batches 1 to [k-1], in order, and
    the calls made are the connection, an [executemany] and a commit for
    each of these batches, the refused [executemany] and the rollback. *)
Theorem C4_partial_commit records w t k :
  reachable (db w) = true →
  tables (db w) !! TARGET_TABLE = Some t →
  1 ≤ k →
  (k - 1) * batch_size < List.length records →
  (∀ j, j < k - 1 →
     batch_ok engine_accepts (rows t ++ take (j * batch_size) records)
       (nth_batch records j) = true) →
  batch_ok engine_accepts (rows t ++ take ((k - 1) * batch_size) records)
    (nth_batch records (k - 1)) = false →
  batch_size = 50
  ∧ (insert_records engine_accepts records w).1 = inl pyodbc_executemany_Error
  ∧ target_rows (db (insert_records engine_accepts records w).2)
    = rows t ++ take ((k - 1) * batch_size) records
  ∧ calls (db (insert_records engine_accepts records w).2)
    = calls (db w) ++ [Connect] ++ batch_calls records (k - 1)
      ++ [Executemany (nth_batch records (k - 1)); Exit_rollback].
Proof.
  intros Hr Ht Hk Hlen Hok Hbad. split; [done|].
  destruct (loop_fails_at records (rows t) (calls (db w) ++ [Connect])
              ((List.length records - 0 + (batch_size - 1)) `div` batch_size)
              0 _ (k - 1) (connected_inv records w t Ht))
    as (w1 & (t1 & Ht1 & Hrows1 & Hu1 & Hc1) & E); [| |done|].
  { split; [lia|]. by apply batches_lt. }
  { intros j Hj. apply Hok. lia. }
  assert (E' : insert_records engine_accepts records w
               = (inl pyodbc_executemany_Error,
                  {| db := end_rollback
                             (called (Executemany (nth_batch records (k - 1))) (db w1));
                     logs := logs w1 |})).
  { unfold insert_records, with_connection, connect, get_db, put_db.
    unfold mbind, M_bind. rewrite Hr. unfold range. by rewrite E. }
  rewrite E'. cbn [fst snd db].
  unfold target_rows, end_rollback. cbn [tables called set_uncommitted calls].
  rewrite Ht1, Hrows1, Hc1. by rewrite <- !app_assoc.
Qed.

(** ** The loader as a whole *)

Ltac load_cases df run_id w :=
  rewrite (load_data_unfold df run_id w);
  let Hp := fresh "Hp" in let Hr := fresh "Hr" in
  let Ht := fresh "Ht" in let Hok := fresh "Hok" in
  destruct (prepare to_datetime df run_id) as [?e|[|?r ?recs]] eqn:Hp;
  [ | | unfold single_batch; cbn [db logs];
        destruct (reachable (db w)) eqn:Hr;
        [ destruct (tables (db w) !! TARGET_TABLE) as [?t|] eqn:Ht;
          [ destruct (batch_ok engine_accepts (rows t) (r :: recs)) eqn:Hok | ] | ] ];
  cbn [fst snd db logs].

Lemma columns_normalize df :
  columns (normalize_columns df) = normalize <$> columns df.
Proof.
  unfold columns, normalize_columns. cbn [data].
  rewrite <- !list_fmap_compose. by apply list_fmap_ext.
Qed.

Lemma prepare_missing df run_id :
  (∃ c, c ∈ expected ∧ c ∉ normalize <$> columns df) →
  prepare to_datetime df run_id
  = inl (ValueError_missing (expected ∖ list_to_set (normalize <$> columns df))
           (normalize <$> columns df)).
Proof.
  intros H. rewrite prepare_unfold. unfold prepare_by_rows.
  rewrite columns_normalize. apply missing_iff in H.
  by rewrite bool_decide_eq_true_2.
Qed.

Lemma prepare_missing_inv df run_id m f :
  prepare to_datetime df run_id = inl (ValueError_missing m f) →
  ∃ c, c ∈ expected ∧ c ∉ normalize <$> columns df.
Proof.
  rewrite prepare_unfold. unfold prepare_by_rows. rewrite columns_normalize.
  case_bool_decide as Hm; [intros _; by apply missing_iff|].
  set (ndf := normalize_columns df).
  destruct (named "customer_name" ndf) as [|cN [|cN' csN]];
    destruct (named "address" ndf) as [|cA csA];
    destruct (named "birth_date" ndf) as [|cB [|cB' csB]]; done.
Qed.

(** C2. After every header name is trimmed and lowercased, [load_data]
    raises the ValueError of line 68 exactly when one of customer_name,
    address and birth_date is not among the names; the exception carries
    the set of the missing names and the list of the names found, and
    the database is left as it was: no connection is opened and the
    destination table gains no row. *)
Theorem C2_schema_mismatch df run_id w :
  ((∃ c, c ∈ expected ∧ c ∉ normalize <$> columns df)
   ↔ ∃ m f, (load_data to_datetime engine_accepts df run_id w).1
            = inl (ValueError_missing m f))
  ∧ ((∃ c, c ∈ expected ∧ c ∉ normalize <$> columns df) →
     (load_data to_datetime engine_accepts df run_id w).1
     = inl (ValueError_missing
              (expected ∖ list_to_set (normalize <$> columns df))
              (normalize <$> columns df))
     ∧ db (load_data to_datetime engine_accepts df run_id w).2 = db w).
Proof.
  assert (Hfwd : (∃ c, c ∈ expected ∧ c ∉ normalize <$> columns df) →
     (load_data to_datetime engine_accepts df run_id w).1
     = inl (ValueError_missing
              (expected ∖ list_to_set (normalize <$> columns df))
              (normalize <$> columns df))
     ∧ db (load_data to_datetime engine_accepts df run_id w).2 = db w).
  { intros H. rewrite load_data_unfold, (prepare_missing df run_id H). done. }
  split; [split|done].
  - intros H. destruct (Hfwd H) as [E _]. eauto.
  - intros (m & f & E). revert E. load_cases df run_id w; try done.
    intros [= ->]. by apply (prepare_missing_inv df run_id m f).
Qed.

(** C6. When no record is left after cleaning and capping, [load_data]
    returns normally, having logged the zero-record message, and leaves
    the database as it was: no connection is opened and no insert is
    executed. *)
Theorem C6_empty_noop df run_id w :
  prepare to_datetime df run_id = inr [] →
  load_data to_datetime engine_accepts df run_id w
  = (inr (),
     {| db := db w;
        logs := logs w ++ [Loading_data; Missing_columns_check;
                           Prepared 0; No_records] |}).
Proof. intros H. by rewrite load_data_unfold, H. Qed.

(** C10. The cap equals the batch size, so the loop of [load_data] has
    at most one pass: the range it iterates over has at most one
    element, and a run makes at most one [executemany] call and one
    [commit] call and logs at most one progress line. *)
Theorem C10_single_batch df run_id w :
  (∀ recs, prepare to_datetime df run_id = inr recs →
     List.length (range 0 (List.length recs) batch_size) ≤ 1)
  ∧ ∃ new_calls new_logs,
      calls (db (load_data to_datetime engine_accepts df run_id w).2)
      = calls (db w) ++ new_calls
      ∧ logs (load_data to_datetime engine_accepts df run_id w).2
        = logs w ++ new_logs
      ∧ count is_executemany new_calls ≤ 1
      ∧ count is_commit new_calls ≤ 1
      ∧ count is_inserted new_logs ≤ 1.
Proof.
  split.
  - intros recs Hp. apply prepare_inr in Hp as [-> _].
    pose proof (records_of_length df run_id) as Hlen.
    destruct (records_of to_datetime df run_id) as [|r recs]; [cbn; lia|].
    unfold batch_size. cbn [List.length] in *.
    rewrite range_single by lia. cbn. lia.
  - load_cases df run_id w.
    + exists [], [Loading_data; Missing_columns_check].
      rewrite app_nil_r. cbn. repeat split; lia.
    + exists [], [Loading_data; Missing_columns_check; Prepared 0; No_records].
      rewrite app_nil_r. cbn. repeat split; lia.
    + exists [Connect; Executemany (r :: recs); Commit; Exit_commit],
        [Loading_data; Missing_columns_check; Prepared (List.length (r :: recs));
         Inserted (List.length (r :: recs)) (List.length (r :: recs));
         Done (List.length (r :: recs))].
      cbn [end_commit called set_uncommitted calls].
      rewrite <- !app_assoc. cbn [app count is_executemany is_commit is_inserted
        List.filter List.length]. repeat split; lia.
    + exists [Connect; Executemany (r :: recs); Exit_rollback],
        [Loading_data; Missing_columns_check; Prepared (List.length (r :: recs))].
      unfold end_rollback. cbn [called set_uncommitted calls].
      rewrite <- !app_assoc. cbn [app count is_executemany is_commit is_inserted
        List.filter List.length]. repeat split; lia.
    + exists [Connect; Executemany (r :: recs); Exit_rollback],
        [Loading_data; Missing_columns_check; Prepared (List.length (r :: recs))].
      unfold end_rollback. cbn [called set_uncommitted calls].
      rewrite <- !app_assoc. cbn [app count is_executemany is_commit is_inserted
        List.filter List.length]. repeat split; lia.
    + exists [], [Loading_data; Missing_columns_check; Prepared (List.length (r :: recs))].
      rewrite app_nil_r. cbn. repeat split; lia.
Qed.

(** *** The rows a run adds to the destination table *)

Lemma target_rows_committed recs d t :
  tables d !! TARGET_TABLE = Some t →
  target_rows
    (end_commit Exit_commit
       (end_commit Commit
          (set_uncommitted recs
             (called (Executemany recs) (called Connect (set_uncommitted [] d))))))
  = rows t ++ recs.
Proof.
  intros Ht. unfold target_rows.
  cbn [tables end_commit set_uncommitted called uncommitted].
  rewrite !lookup_alter_eq, Ht. cbn. by rewrite app_nil_r.
Qed.

(** A run adds nothing to the table, or it returns normally and adds
    all the records it prepared, which the driver found to be 4-tuples. *)
Lemma load_data_loaded df run_id w :
  ∃ loaded,
    target_rows (db (load_data to_datetime engine_accepts df run_id w).2)
    = target_rows (db w) ++ loaded
    ∧ (loaded = []
       ∨ (loaded = records_of to_datetime df run_id
          ∧ prepare to_datetime df run_id = inr loaded
          ∧ (load_data to_datetime engine_accepts df run_id w).1 = inr ()
          ∧ batch_ok engine_accepts (target_rows (db w)) loaded = true)).
Proof.
  load_cases df run_id w;
    try (exists []; rewrite app_nil_r; split; [reflexivity|by left]).
  exists (r :: recs). rewrite (target_rows_committed _ _ t) by done.
  unfold target_rows. rewrite Ht. split; [done|]. right.
  by apply prepare_inr in Hp as [<- _].
Qed.

Lemma batch_ok_arity held batch r :
  batch_ok engine_accepts held batch = true → r ∈ batch → List.length r = 4.
Proof.
  unfold batch_ok. intros H Hr. apply andb_prop in H as [H _].
  apply list_elem_of_In in Hr.
  apply (proj1 (forallb_forall _ _) H) in Hr. by apply Nat.eqb_eq in Hr.
Qed.

Lemma record_of_last df run_id i :
  last (record_of to_datetime df run_id i) = Some (VStr run_id).
Proof.
  unfold record_of, row_tuple.
  rewrite app_comm_cons, last_app. done.
Qed.

Lemma record_of_name df run_id i :
  record_of to_datetime df run_id i !! 0
  = Some (VStr (clean_name (name_column df) i)).
Proof. reflexivity. Qed.


Lemma elem_of_records_of df run_id r :
  r ∈ records_of to_datetime df run_id →
  ∃ i, r = record_of to_datetime df run_id i
       ∧ i ∈ index df ∧ clean_name (name_column df) i ≠ "".
Proof.
  unfold records_of. intros H.
  apply list_elem_of_fmap in H as (i & -> & Hi). exists i. split; [done|].
  apply subseteq_take in Hi. unfold survivors, surviving in Hi.
  by apply list_elem_of_filter in Hi as [? ?].
Qed.

Lemma survivors_spec df i :
  i ∈ survivors df ↔ i ∈ index df ∧ clean_name (name_column df) i ≠ "".
Proof.
  unfold survivors, surviving. rewrite list_elem_of_filter. tauto.
Qed.

(** *** The claims on the records *)

(** C1. A run of [load_data] adds at most 50 rows to the destination
    table, and what it adds is nothing or the records of the first 50
    rows, in file order, among those that survive cleaning.  On a file
    whose header names each required column once and of which at least
    50 rows survive cleaning, with the server reachable, the table there
    and the engine taking the batch, the run returns normally and adds
    exactly these 50 records. *)
Theorem C1_cap df run_id w :
  (∃ loaded,
     target_rows (db (load_data to_datetime engine_accepts df run_id w).2)
     = target_rows (db w) ++ loaded
     ∧ List.length loaded ≤ 50
     ∧ (loaded = []
        ∨ loaded = record_of to_datetime df run_id <$> take 50 (survivors df)))
  ∧ (unique_header df →
     50 ≤ List.length (survivors df) →
     reachable (db w) = true →
     is_Some (tables (db w) !! TARGET_TABLE) →
     batch_ok engine_accepts (target_rows (db w))
       (record_of to_datetime df run_id <$> take 50 (survivors df)) = true →
     (load_data to_datetime engine_accepts df run_id w).1 = inr ()
     ∧ target_rows (db (load_data to_datetime engine_accepts df run_id w).2)
       = target_rows (db w)
         ++ (record_of to_datetime df run_id <$> take 50 (survivors df))
     ∧ List.length (record_of to_datetime df run_id <$> take 50 (survivors df)) = 50).
Proof.
  split.
  - destruct (load_data_loaded df run_id w) as (loaded & E & [->|(-> & _)]).
    + exists []. split; [done|]. split; [cbn; lia|by left].
    + exists (records_of to_datetime df run_id).
      split; [done|]. split; [apply records_of_length|by right].
  - intros Hu Hn Hr [t Ht] Hok.
    assert (Hlen : List.length
              (record_of to_datetime df run_id <$> take 50 (survivors df)) = 50)
      by (rewrite length_fmap, length_take; lia).
    rewrite load_data_unfold, (prepare_unique to_datetime df run_id Hu).
    unfold records_of.
    destruct (record_of to_datetime df run_id <$> take 50 (survivors df))
      as [|r recs] eqn:E; [discriminate|].
    unfold single_batch. cbn [db logs]. rewrite Hr, Ht.
    unfold target_rows in Hok. rewrite Ht in Hok. rewrite Hok. cbn [fst snd db].
    rewrite (target_rows_committed _ _ t) by done.
    unfold target_rows. rewrite Ht. done.
Qed.



(** C8. Every row a run with identifier [run_id] adds to the table is a
    4-tuple whose fourth field is [run_id]; and the last field of every
    record prepared in a run is the identifier of that run, so a record
    prepared under another identifier does not carry [run_id]. *)
Theorem C8_run_tag df run_id w :
  (∃ loaded,
     target_rows (db (load_data to_datetime engine_accepts df run_id w).2)
     = target_rows (db w) ++ loaded
     ∧ ∀ r, r ∈ loaded → List.length r = 4 ∧ r !! 3 = Some (VStr run_id))
  ∧ (∀ df' run_id' recs r,
       prepare to_datetime df' run_id' = inr recs → r ∈ recs →
       last r = Some (VStr run_id')
       ∧ (run_id' ≠ run_id → last r ≠ Some (VStr run_id))).
Proof.
  assert (Hlast : ∀ df' run_id' recs r,
            prepare to_datetime df' run_id' = inr recs → r ∈ recs →
            last r = Some (VStr run_id')).
  { intros df' run_id' recs r Hp Hr. apply prepare_inr in Hp as [-> _].
    apply elem_of_records_of in Hr as (i & -> & _). apply record_of_last. }
  split.
  - destruct (load_data_loaded df run_id w)
      as (loaded & E & [->|(-> & Hp & _ & Hok)]).
    + exists []. split; [done|]. intros r Hr. by apply not_elem_of_nil in Hr.
    + exists (records_of to_datetime df run_id). split; [done|].
      intros r Hr. pose proof (batch_ok_arity _ _ r Hok Hr) as Hlen.
      split; [done|]. rewrite <- (Hlast df run_id _ r Hp Hr).
      rewrite last_lookup, Hlen. done.
  - intros df' run_id' recs r Hp Hr. rewrite (Hlast df' run_id' recs r Hp Hr).
    split; [done|]. congruence.
Qed.

(** C9. A missing customer_name becomes the text "nan" by the string
    conversion of line 75: the row survives the filter of line 76, its
    record has "nan" as customer_name, neither dropped nor [None], and
    when the row is among the first 50 survivors this record is the one
    prepared for it. *)
Theorem C9_nan_name_kept df run_id recs i :
  prepare to_datetime df run_id = inr recs →
  i ∈ index df →
  name_column df i = VNaN →
  clean_name (name_column df) i = "nan"
  ∧ i ∈ survivors df
  ∧ record_of to_datetime df run_id i !! 0 = Some (VStr "nan")
  ∧ (∀ k, take 50 (survivors df) !! k = Some i →
          recs !! k = Some (record_of to_datetime df run_id i)).
Proof.
  intros Hp Hi Hn.
  assert (Hc : clean_name (name_column df) i = "nan")
    by (unfold clean_name; by rewrite Hn).
  split; [done|]. split; [|split].
  - apply survivors_spec. split; [done|]. by rewrite Hc.
  - by rewrite record_of_name, Hc.
  - intros k Hk. apply prepare_inr in Hp as [-> _].
    unfold records_of. by rewrite list_lookup_fmap, Hk.
Qed.

End LoaderProps.

(** ** The schema ensurer *)

(** C7. On a reachable server [create_table_if_missed] returns normally,
    and so does a second run; the second run leaves the tables as the
    first left them and executes no CREATE TABLE.  The first run creates
    the destination table, empty and with the columns of lines 40 to 45,
    when there is none of that name, which adds one table; it leaves an
    existing one as it is.  On an empty database the two runs leave
    exactly that one table. *)
Theorem C7_idempotent_schema w :
  reachable (db w) = true →
  (create_table_if_missed w).1 = inr ()
  ∧ (create_table_if_missed (create_table_if_missed w).2).1 = inr ()
  ∧ tables (db (create_table_if_missed (create_table_if_missed w).2).2)
    = tables (db (create_table_if_missed w).2)
  ∧ ddl_executed (db (create_table_if_missed (create_table_if_missed w).2).2)
    = ddl_executed (db (create_table_if_missed w).2)
  ∧ (tables (db w) !! TARGET_TABLE = None →
     tables (db (create_table_if_missed w).2)
     = <[TARGET_TABLE := {| schema := target_schema; rows := [] |}]> (tables (db w))
     ∧ size (tables (db (create_table_if_missed w).2)) = S (size (tables (db w)))
     ∧ ddl_executed (db (create_table_if_missed w).2) = S (ddl_executed (db w)))
  ∧ (is_Some (tables (db w) !! TARGET_TABLE) →
     tables (db (create_table_if_missed w).2) = tables (db w)
     ∧ ddl_executed (db (create_table_if_missed w).2) = ddl_executed (db w))
  ∧ (tables (db w) = ∅ →
     tables (db (create_table_if_missed (create_table_if_missed w).2).2)
     = {[ TARGET_TABLE := {| schema := target_schema; rows := [] |} ]}).
Proof.
  intros Hr.
  assert (E1 : create_table_if_missed w
          = (inr (),
             match tables (db w) !! TARGET_TABLE with
             | Some _ =>
                 {| db := called Execute_create_if_missing
                            (called Connect (set_uncommitted [] (db w)));
                    logs := logs w |}
             | None =>
                 {| db := {| reachable := reachable (db w);
                             tables := <[TARGET_TABLE :=
                                          {| schema := target_schema; rows := [] |}]>
                                         (tables (db w));
                             uncommitted := [];
                             ddl_executed := S (ddl_executed (db w));
                             calls := (calls (db w) ++ [Connect])
                                      ++ [Execute_create_if_missing] |};
                    logs := logs w |}
             end)).
  { unfold create_table_if_missed, with_connection, connect,
      execute_create_if_missing, get_db, put_db, mbind, M_bind.
    rewrite Hr. cbn [db logs tables called set_uncommitted].
    destruct (tables (db w) !! TARGET_TABLE); cbn; by rewrite ?Hr. }
  assert (E2 : ∀ w', reachable (db w') = true →
            is_Some (tables (db w') !! TARGET_TABLE) →
            create_table_if_missed w'
            = (inr (),
               {| db := called Execute_create_if_missing
                          (called Connect (set_uncommitted [] (db w')));
                  logs := logs w' |})).
  { intros w' Hr' [t' Ht'].
    unfold create_table_if_missed, with_connection, connect,
      execute_create_if_missing, get_db, put_db, mbind, M_bind.
    rewrite Hr'. cbn [db logs tables called set_uncommitted]. by rewrite Ht'. }
  rewrite E1. cbn [fst snd].
  destruct (tables (db w) !! TARGET_TABLE) as [t|] eqn:Ht.
  - rewrite E2; [|cbn; exact Hr|cbn; rewrite Ht; eauto]. cbn.
    repeat split; try done.
    intros E. rewrite E in Ht. by rewrite lookup_empty in Ht.
  - rewrite E2; [|cbn; exact Hr|cbn; rewrite lookup_insert_eq; eauto]. cbn.
    repeat split; try done.
    + by apply map_size_insert_None.
    + by intros ->.
Qed.

(** * The claims at sample inputs *)

Lemma sample_header_unique : unique_header sample_file.
Proof. repeat split; vm_compute; reflexivity. Defined.

Lemma big_header_unique : unique_header big_file.
Proof. repeat split; vm_compute; reflexivity. Defined.

(** Fifty-one of the sixty rows of [big_file] survive cleaning; a run on
    the created table returns normally and loads the first fifty. *)
Lemma C1_cap_witness :
  (load_data parse_sample accept_all big_file "run-1" ready_world).1 = inr ()
  ∧ target_rows (db (load_data parse_sample accept_all big_file "run-1" ready_world).2)
    = target_rows (db ready_world)
      ++ (record_of parse_sample big_file "run-1" <$> take 50 (survivors big_file))
  ∧ List.length (record_of parse_sample big_file "run-1" <$> take 50 (survivors big_file)) = 50.
Proof.
  apply (proj2 (C1_cap parse_sample accept_all big_file "run-1" ready_world)).
  - exact big_header_unique.
  - vm_compute. lia.
  - reflexivity.
  - eexists. vm_compute. reflexivity.
  - vm_compute. reflexivity.
Defined.

(** A file without a birth_date column. *)
Lemma C2_schema_mismatch_witness :
  (load_data parse_sample accept_all no_birth_file "run-1" fresh_world).1
  = inl (ValueError_missing
           (expected ∖ list_to_set (normalize <$> columns no_birth_file))
           (normalize <$> columns no_birth_file))
  ∧ db (load_data parse_sample accept_all no_birth_file "run-1" fresh_world).2
    = db fresh_world.
Proof.
  apply (proj2 (C2_schema_mismatch parse_sample accept_all no_birth_file "run-1" fresh_world)).
  exists "birth_date". split.
  - unfold expected. apply elem_of_union_r. by apply elem_of_singleton.
  - change (normalize <$> columns no_birth_file)
      with ["customer_name"; "address"].
    intros H. apply elem_of_cons in H as [H|H]; [discriminate|].
    apply elem_of_cons in H as [H|H]; [discriminate|].
    by apply not_elem_of_nil in H.
Defined.


(** Sixty records and an engine that refuses the second batch. *)
Lemma C4_partial_commit_witness :
  batch_size = 50
  ∧ (insert_records accept_below_50 sixty_records ready_world).1
    = inl pyodbc_executemany_Error
  ∧ target_rows (db (insert_records accept_below_50 sixty_records ready_world).2)
    = [] ++ take ((2 - 1) * batch_size) sixty_records
  ∧ calls (db (insert_records accept_below_50 sixty_records ready_world).2)
    = calls (db ready_world) ++ [Connect] ++ batch_calls sixty_records (2 - 1)
      ++ [Executemany (nth_batch sixty_records (2 - 1)); Exit_rollback].
Proof.
  apply (C4_partial_commit accept_below_50 sixty_records ready_world
           {| schema := target_schema; rows := [] |} 2).
  - reflexivity.
  - vm_compute. reflexivity.
  - lia.
  - vm_compute. lia.
  - intros j Hj. assert (j = 0) as -> by lia. vm_compute. reflexivity.
  - vm_compute. reflexivity.
Defined.


(** A file with a valid header and no rows. *)
Lemma C6_empty_noop_witness :
  load_data parse_sample accept_all empty_file "run-1" ready_world
  = (inr (),
     {| db := db ready_world;
        logs := logs ready_world ++ [Loading_data; Missing_columns_check;
                                     Prepared 0; No_records] |}).
Proof.
  apply (C6_empty_noop parse_sample accept_all empty_file "run-1" ready_world).
  vm_compute. reflexivity.
Defined.

(** The empty database. *)
Lemma C7_idempotent_schema_witness :
  (create_table_if_missed (create_table_if_missed fresh_world).2).1 = inr ()
  ∧ tables (db (create_table_if_missed (create_table_if_missed fresh_world).2).2)
    = {[ TARGET_TABLE := {| schema := target_schema; rows := [] |} ]}
  ∧ ddl_executed (db (create_table_if_missed (create_table_if_missed fresh_world).2).2)
    = 1.
Proof.
  destruct (C7_idempotent_schema fresh_world eq_refl)
    as (_ & H2 & _ & Hd & Hnew & _ & Hempty).
  split; [exact H2|]. split; [exact (Hempty eq_refl)|].
  rewrite Hd. destruct (Hnew eq_refl) as (_ & _ & ->). reflexivity.
Defined.

(** The first record of [sample_file] prepared under "run-2" does not
    carry "run-1". *)
Lemma C8_run_tag_witness :
  last [VStr "Ann"; VStr "1 Main St"; VDate (Date 2020 1 5); VStr "run-2"]
  ≠ Some (VStr "run-1").
Proof.
  destruct (proj2 (C8_run_tag parse_sample accept_all sample_file "run-1" ready_world)
              sample_file "run-2" (records_of parse_sample sample_file "run-2")
              [VStr "Ann"; VStr "1 Main St"; VDate (Date 2020 1 5); VStr "run-2"]
              (prepare_unique parse_sample sample_file "run-2" sample_header_unique))
    as [_ H].
  - vm_compute. left.
  - apply H. discriminate.
Defined.

(** Row 2 of [sample_file] has no customer_name. *)
Lemma C9_nan_name_kept_witness :
  clean_name (name_column sample_file) 2 = "nan"
  ∧ 2 ∈ survivors sample_file
  ∧ record_of parse_sample sample_file "run-1" 2 !! 0 = Some (VStr "nan")
  ∧ (∀ k, take 50 (survivors sample_file) !! k = Some 2 →
          records_of parse_sample sample_file "run-1" !! k
          = Some (record_of parse_sample sample_file "run-1" 2)).
Proof.
  apply (C9_nan_name_kept parse_sample sample_file "run-1").
  - exact (prepare_unique parse_sample sample_file "run-1" sample_header_unique).
  - vm_compute. do 2 right. left.
  - vm_compute. reflexivity.
Defined.

(** The fifty records of [big_file] make one pass of the loop. *)
Lemma C10_single_batch_witness :
  List.length
    (range 0 (List.length (records_of parse_sample big_file "run-1")) batch_size) ≤ 1.
Proof.
  apply (proj1 (C10_single_batch parse_sample accept_all big_file "run-1" ready_world)).
  exact (prepare_unique parse_sample big_file "run-1" big_header_unique).
Defined.

(** * Further properties of the code *)

(** ** The connection string *)

Lemma extra_get_insert_ne (e : gmap string scalar) k v k' :
  k ≠ k' →
  (if decide (<[k:=v]> e = ∅) then ∅ else <[k:=v]> e) !! k'
  = (if decide (e = ∅) then ∅ else e) !! k'.
Proof.
  intros Hne. destruct (decide (<[k:=v]> e = ∅)) as [E|_].
  { by apply insert_non_empty in E. }
  rewrite lookup_insert_ne by done.
  destruct (decide (e = ∅)) as [->|_]; [by rewrite !lookup_empty|done].
Qed.

(** X1. The defaults of [build_pyodbc_conn_str]: a connection with no
    port, or with port 0, and with no extras gets the string of the same
    connection with port 1433 and the extras driver "ODBC Driver 18 for
    SQL Server", Encrypt "no" and TrustServerCertificate "yes". *)
Theorem conn_str_defaults connections conn_id h s l pw :
  let spelled_out : gmap string scalar :=
    <["driver" := SStr "ODBC Driver 18 for SQL Server"]>
      (<["Encrypt" := SStr "no"]>
         (<["TrustServerCertificate" := SStr "yes"]> ∅)) in
  let c p e := {| host := h; port := p; conn_schema := s; login := l;
                  password := pw; extra_dejson := e |} in
  build_pyodbc_conn_str (<[conn_id := c None ∅]> connections) conn_id
  = build_pyodbc_conn_str (<[conn_id := c (Some 1433%Z) spelled_out]> connections) conn_id
  ∧ build_pyodbc_conn_str (<[conn_id := c (Some 0%Z) ∅]> connections) conn_id
    = build_pyodbc_conn_str (<[conn_id := c (Some 1433%Z) spelled_out]> connections) conn_id.
Proof.
  intros spelled_out c. unfold build_pyodbc_conn_str.
  rewrite !lookup_insert_eq. cbn [fmap option_fmap option_map].
  assert (Hne : spelled_out ≠ ∅) by apply insert_non_empty.
  assert (E : ∀ p, conn_str (c p spelled_out) = conn_str (c p ∅)).
  { intros p. unfold conn_str, extra_or_empty, port_or_default, c.
    cbn [extra_dejson port host conn_schema login password].
    destruct (decide (spelled_out = ∅)) as [?|_]; [done|].
    destruct (decide (∅ =@{gmap string scalar} ∅)) as [_|?]; [|done].
    unfold spelled_out. rewrite !lookup_empty.
    rewrite lookup_insert_eq.
    rewrite (lookup_insert_ne _ "driver" "Encrypt") by done.
    rewrite lookup_insert_eq.
    rewrite (lookup_insert_ne _ "driver" "TrustServerCertificate") by done.
    rewrite (lookup_insert_ne _ "Encrypt" "TrustServerCertificate") by done.
    rewrite lookup_insert_eq. done. }
  rewrite E. split; reflexivity.
Qed.

(** X2. Of the extras, [build_pyodbc_conn_str] reads the keys driver,
    Encrypt and TrustServerCertificate, spelled so, and no other: a
    value set under any other key changes nothing in the string. *)
Theorem conn_str_other_extras connections conn_id h p s l pw e k v :
  k ≠ "driver" → k ≠ "Encrypt" → k ≠ "TrustServerCertificate" →
  build_pyodbc_conn_str
    (<[conn_id := {| host := h; port := p; conn_schema := s; login := l;
                     password := pw; extra_dejson := <[k := v]> e |}]> connections)
    conn_id
  = build_pyodbc_conn_str
      (<[conn_id := {| host := h; port := p; conn_schema := s; login := l;
                       password := pw; extra_dejson := e |}]> connections)
      conn_id.
Proof.
  intros H1 H2 H3. unfold build_pyodbc_conn_str.
  rewrite !lookup_insert_eq. cbn [fmap option_fmap option_map]. f_equal.
  unfold conn_str, extra_or_empty, port_or_default.
  cbn [extra_dejson port host conn_schema login password].
  by rewrite !extra_get_insert_ne by done.
Qed.

(** The key encrypt, in lower case, is not the key Encrypt. *)
Lemma conn_str_other_extras_witness :
  build_pyodbc_conn_str
    {[ CONN_ID := {| host := Some "db"; port := None; conn_schema := Some "sales";
                     login := Some "sa"; password := Some "pw";
                     extra_dejson := <["encrypt" := SStr "yes"]> ∅ |} ]}
    CONN_ID
  = Some "DRIVER={ODBC Driver 18 for SQL Server};SERVER=db,1433;DATABASE=sales;UID=sa;PWD=pw;Encrypt=no;TrustServerCertificate=yes;".
Proof.
  unfold singletonM, map_singleton.
  rewrite (conn_str_other_extras ∅ CONN_ID (Some "db") None (Some "sales")
             (Some "sa") (Some "pw") ∅ "encrypt" (SStr "yes")) by done.
  vm_compute. reflexivity.
Defined.

(** ** Trimming and lowercasing *)

Lemma lstrip_split s : ∃ a, s = a +:+ PyStr.lstrip s ∧ all_space a = true.
Proof.
  induction s as [|c s IH]; [by exists ""|].
  cbn [PyStr.lstrip]. destruct (PyStr.isspace c) eqn:Hc.
  - destruct IH as (a & E & Ha). exists (String c a). split.
    + change (String c s = String c (a +:+ PyStr.lstrip s)). by rewrite <- E.
    + cbn [all_space]. by rewrite Hc, Ha.
  - by exists "".
Qed.

Lemma lstrip_first s c :
  first_char (PyStr.lstrip s) = Some c → PyStr.isspace c = false.
Proof.
  induction s as [|c' s IH]; [done|].
  cbn [PyStr.lstrip]. destruct (PyStr.isspace c') eqn:Hc; [done|].
  cbn. by intros [= <-].
Qed.

Lemma rstrip_cons c s :
  PyStr.isspace c = false →
  PyStr.rstrip (String c s) = String c (PyStr.rstrip s).
Proof. intros Hc. cbn. rewrite Hc. by destruct (PyStr.rstrip s). Qed.

Lemma rstrip_split s : ∃ b, s = PyStr.rstrip s +:+ b ∧ all_space b = true.
Proof.
  induction s as [|c s (b & E & Hb)]; [by exists ""|].
  cbn [PyStr.rstrip]. destruct (PyStr.rstrip s) as [|c' r] eqn:Er.
  - change (s = b) in E. subst b. destruct (PyStr.isspace c) eqn:Hc.
    + exists (String c s). split; [done|]. cbn [all_space]. by rewrite Hc, Hb.
    + by exists s.
  - exists b. split; [|done].
    change (String c s = String c (String c' r +:+ b)). by rewrite <- E.
Qed.

Lemma rstrip_last s c :
  last_char (PyStr.rstrip s) = Some c → PyStr.isspace c = false.
Proof.
  induction s as [|c' s IH]; [done|].
  cbn [PyStr.rstrip]. destruct (PyStr.rstrip s) as [|c'' r] eqn:Er.
  - destruct (PyStr.isspace c') eqn:Hc; [done|]. cbn. by intros [= <-].
  - intros H. apply IH. exact H.
Qed.

Lemma rstrip_first s c :
  first_char (PyStr.rstrip s) = Some c → first_char s = Some c.
Proof.
  destruct s as [|c' s]; [done|].
  cbn [PyStr.rstrip]. destruct (PyStr.rstrip s); [|done].
  by destruct (PyStr.isspace c').
Qed.

Lemma rstrip_eq c s :
  PyStr.rstrip (String c s)
  = match PyStr.rstrip s with
    | EmptyString => if PyStr.isspace c then EmptyString else String c EmptyString
    | r => String c r
    end.
Proof. reflexivity. Qed.

Lemma rstrip_id s :
  (∀ c, last_char s = Some c → PyStr.isspace c = false) → PyStr.rstrip s = s.
Proof.
  induction s as [|c s IH]; [done|]. intros H.
  destruct s as [|c' s'].
  - cbn. by rewrite (H c eq_refl).
  - rewrite rstrip_eq, IH by (intros c'' Hc''; by apply H). done.
Qed.

Lemma lstrip_id s :
  (∀ c, first_char s = Some c → PyStr.isspace c = false) → PyStr.lstrip s = s.
Proof. destruct s as [|c s]; [done|]. intros H. cbn. by rewrite (H c eq_refl). Qed.

Lemma strip_trimmed s : trimmed (PyStr.strip s).
Proof.
  unfold trimmed, PyStr.strip. split.
  - intros c Hc. apply rstrip_first in Hc. by apply (lstrip_first s).
  - apply rstrip_last.
Qed.

Lemma strip_id s : trimmed s → PyStr.strip s = s.
Proof.
  intros [H1 H2]. unfold PyStr.strip. rewrite lstrip_id by done. by apply rstrip_id.
Qed.

Lemma strip_split s :
  ∃ a b, s = a +:+ PyStr.strip s +:+ b ∧ all_space a = true ∧ all_space b = true.
Proof.
  destruct (lstrip_split s) as (a & Ea & Ha).
  destruct (rstrip_split (PyStr.lstrip s)) as (b & Eb & Hb).
  exists a, b. split; [|done]. unfold PyStr.strip.
  rewrite Ea at 1. by rewrite Eb at 1.
Qed.

Lemma lower_char_idem c : PyStr.lower_char (PyStr.lower_char c) = PyStr.lower_char c.
Proof. destruct c as [[] [] [] [] [] [] [] []]; reflexivity. Qed.

Lemma isspace_lower_char c : PyStr.isspace (PyStr.lower_char c) = PyStr.isspace c.
Proof. destruct c as [[] [] [] [] [] [] [] []]; reflexivity. Qed.

Lemma lower_idem s : PyStr.lower (PyStr.lower s) = PyStr.lower s.
Proof. induction s as [|c s IH]; [done|]. cbn. by rewrite lower_char_idem, IH. Qed.

Lemma lstrip_lower s : PyStr.lstrip (PyStr.lower s) = PyStr.lower (PyStr.lstrip s).
Proof.
  induction s as [|c s IH]; [done|]. cbn. rewrite isspace_lower_char.
  by destruct (PyStr.isspace c).
Qed.

Lemma rstrip_lower s : PyStr.rstrip (PyStr.lower s) = PyStr.lower (PyStr.rstrip s).
Proof.
  induction s as [|c s IH]; [done|]. cbn. rewrite IH, isspace_lower_char.
  destruct (PyStr.rstrip s); [|done]. by destruct (PyStr.isspace c).
Qed.

Lemma normalize_idem c : normalize (normalize c) = normalize c.
Proof.
  unfold normalize, PyStr.strip.
  rewrite lstrip_lower, rstrip_lower, lower_idem.
  fold (PyStr.strip c). fold (PyStr.strip (PyStr.strip c)).
  by rewrite (strip_id _ (strip_trimmed c)).
Qed.

(** X3. Line 63 is idempotent: a file whose header has already been
    trimmed and lowercased is left as it is, and [prepare] gives for it
    what it gives for the file as read. *)
Theorem prepare_normalized to_datetime df run_id :
  normalize_columns (normalize_columns df) = normalize_columns df
  ∧ prepare to_datetime (normalize_columns df) run_id
    = prepare to_datetime df run_id.
Proof.
  assert (E : normalize_columns (normalize_columns df) = normalize_columns df).
  { unfold normalize_columns. cbn [index data]. f_equal.
    rewrite <- list_fmap_compose. apply list_fmap_ext. intros _ [l c] _.
    unfold compose. cbn [fst snd]. by rewrite normalize_idem. }
  split; [done|]. unfold prepare, prepare_frame. by rewrite E.
Qed.

(** X4. The customer_name of every prepared record is a text that is not
    empty and has no whitespace at either end, so that trimming it again
    changes nothing; it is the text of the cell of a row of the file
    with whitespace, and nothing else, taken off its ends. *)
Theorem prepared_name_trimmed to_datetime df run_id recs r :
  prepare to_datetime df run_id = inr recs →
  r ∈ recs →
  ∃ n i a b,
    r !! 0 = Some (VStr n)
    ∧ n ≠ ""
    ∧ trimmed n
    ∧ PyStr.strip n = n
    ∧ i ∈ index df
    ∧ astype_str (name_column df i) = a +:+ n +:+ b
    ∧ all_space a = true ∧ all_space b = true.
Proof.
  intros Hp Hr. apply prepare_inr in Hp as [-> _].
  apply elem_of_records_of in Hr as (i & -> & Hi & Hn).
  destruct (strip_split (astype_str (name_column df i))) as (a & b & E & Ha & Hb).
  exists (clean_name (name_column df) i), i, a, b.
  unfold clean_name in *. repeat split; try done.
  - apply strip_trimmed.
  - apply strip_trimmed.
  - apply strip_id, strip_trimmed.
Qed.

Lemma prepared_name_trimmed_witness :
  ∃ n i a b,
    [VStr "Ann"; VStr "1 Main St"; VDate (Date 2020 1 5); VStr "run-1"] !! 0
    = Some (VStr n)
    ∧ n ≠ ""
    ∧ trimmed n
    ∧ PyStr.strip n = n
    ∧ i ∈ index sample_file
    ∧ astype_str (name_column sample_file i) = a +:+ n +:+ b
    ∧ all_space a = true ∧ all_space b = true.
Proof.
  apply (prepared_name_trimmed parse_sample sample_file "run-1"
           (records_of parse_sample sample_file "run-1")).
  - exact (prepare_unique parse_sample sample_file "run-1" sample_header_unique).
  - vm_compute. left.
Defined.

(** ** What the records hold *)

Section RecordProps.

Variable to_datetime : list value → value → option date.





End RecordProps.



(** ** What the header decides *)

Section HeaderProps.

Variable to_datetime : list value → value → option date.
Variable engine_accepts : list record → list record → bool.

Lemma named_extra_column l idx pre c post :
  normalize c.1 ≠ l →
  named l (normalize_columns {| index := idx; data := pre ++ c :: post |})
  = named l (normalize_columns {| index := idx; data := pre ++ post |}).
Proof.
  intros Hne. unfold named, normalize_columns. cbn [data index].
  rewrite !fmap_app, fmap_cons, !filter_app, filter_cons_False by done.
  done.
Qed.

Lemma expected_elem l :
  l ∈ expected ↔ l = "customer_name" ∨ l = "address" ∨ l = "birth_date".
Proof.
  unfold expected. rewrite !elem_of_union, !elem_of_singleton. tauto.
Qed.

(** X7. A column that is not one of the three required ones is ignored,
    wherever it stands in the file: with it and without it the same
    records are prepared. *)
Theorem extra_column_ignored idx pre c post run_id recs :
  normalize c.1 ∉ expected →
  prepare to_datetime {| index := idx; data := pre ++ c :: post |} run_id = inr recs
  ↔ prepare to_datetime {| index := idx; data := pre ++ post |} run_id = inr recs.
Proof.
  clear engine_accepts. intros Hc.
  assert (Hn : ∀ l, l ∈ expected →
            named l (normalize_columns {| index := idx; data := pre ++ c :: post |})
            = named l (normalize_columns {| index := idx; data := pre ++ post |})).
  { intros l Hl. apply named_extra_column. intros E. by rewrite E in Hc. }
  assert (Hm : bool_decide (expected ∖ list_to_set (columns (normalize_columns
                  {| index := idx; data := pre ++ c :: post |})) ≠ ∅)
               = bool_decide (expected ∖ list_to_set (columns (normalize_columns
                  {| index := idx; data := pre ++ post |})) ≠ ∅)).
  { apply bool_decide_ext. rewrite !missing_iff.
    split; intros (e & He & Hne); exists e; (split; [done|]);
      intros Hin; apply Hne; apply named_elem; apply named_elem in Hin.
    - by rewrite Hn.
    - by rewrite <- Hn. }
  rewrite !prepare_unfold. unfold prepare_by_rows. rewrite Hm.
  rewrite !Hn by (apply expected_elem; tauto). cbn [index].
  destruct (bool_decide (expected ∖ list_to_set (columns (normalize_columns
              {| index := idx; data := pre ++ post |})) ≠ ∅)).
  - split; intros H; inversion H.
  - done.
Qed.

Lemma named_permutation l df df' :
  data df' ≡ₚ data df →
  named l (normalize_columns df') ≡ₚ named l (normalize_columns df).
Proof.
  intros H. unfold named, normalize_columns. cbn [data]. by rewrite H.
Qed.

(** X8. The order of the columns is irrelevant: a file whose header
    names each required column once gives the same result when its
    columns are permuted. *)
Theorem column_order_irrelevant df df' run_id :
  unique_header df →
  index df' = index df →
  data df' ≡ₚ data df →
  prepare to_datetime df' run_id = prepare to_datetime df run_id.
Proof.
  intros Hu Hi Hp.
  destruct Hu as (HN & HA & HB).
  apply length_1 in HN as [cN HN], HA as [cA HA], HB as [cB HB].
  pose proof (named_permutation "customer_name" df df' Hp) as HN'.
  pose proof (named_permutation "address" df df' Hp) as HA'.
  pose proof (named_permutation "birth_date" df df' Hp) as HB'.
  rewrite HN in HN'. rewrite HA in HA'. rewrite HB in HB'.
  apply Permutation_singleton_r in HN', HA', HB'.
  rewrite !prepare_unique by (unfold unique_header; by rewrite ?HN, ?HA, ?HB, ?HN', ?HA', ?HB').
  unfold records_of, record_of, survivors, name_column, birth_column,
    address_columns, column_of.
  by rewrite HN, HA, HB, HN', HA', HB', Hi.
Qed.

(** X9. Two columns whose names become birth_date on line 63, or two
    that become customer_name, make the run fail after the check of
    line 67 has passed: line 71 raises for the first, line 75 for the
    second.  No connection is opened and the database is as it was. *)
Theorem duplicate_column_fails df run_id w :
  (∀ c, c ∈ expected → c ∈ normalize <$> columns df) →
  (1 < List.length (named "birth_date" (normalize_columns df)) →
   (load_data to_datetime engine_accepts df run_id w).1 = inl ValueError_duplicate_keys
   ∧ db (load_data to_datetime engine_accepts df run_id w).2 = db w)
  ∧ (List.length (named "birth_date" (normalize_columns df)) = 1 →
     1 < List.length (named "customer_name" (normalize_columns df)) →
     (load_data to_datetime engine_accepts df run_id w).1 = inl AttributeError_str
     ∧ db (load_data to_datetime engine_accepts df run_id w).2 = db w).
Proof.
  intros H0.
  assert (Hin : ∀ l, l ∈ expected → named l (normalize_columns df) ≠ []).
  { intros l Hl. apply named_elem. rewrite columns_normalize. by apply H0. }
  assert (Hm : expected ∖ list_to_set (columns (normalize_columns df)) = ∅).
  { destruct (decide (expected ∖ list_to_set (columns (normalize_columns df)) = ∅))
      as [|Hne]; [done|].
    apply missing_iff in Hne as (c & Hc & Hn). exfalso. apply Hn.
    rewrite columns_normalize. by apply H0. }
  pose proof (Hin "customer_name" ltac:(apply expected_elem; tauto)) as HN.
  pose proof (Hin "address" ltac:(apply expected_elem; tauto)) as HA.
  rewrite !load_data_unfold, !prepare_unfold. unfold prepare_by_rows.
  rewrite bool_decide_eq_false_2 by (rewrite Hm; auto).
  destruct (named "customer_name" (normalize_columns df)) as [|cN csN]; [done|].
  destruct (named "address" (normalize_columns df)) as [|cA csA]; [done|].
  destruct (named "birth_date" (normalize_columns df)) as [|cB [|cB' csB]];
    cbn [List.length]; (split; [intros ?|intros ? ?]); try lia.
  - destruct csN; [cbn [List.length] in *; lia|done].
  - by destruct csN.
Qed.

End HeaderProps.

Lemma extra_column_ignored_witness :
  prepare parse_sample noted_file "run-1"
  = inr (records_of parse_sample sample_file "run-1").
Proof.
  apply (extra_column_ignored parse_sample (index sample_file) []
           ("Notes", λ _, VStr "n") (data sample_file) "run-1").
  - intros H. apply expected_elem in H.
    destruct H as [H|[H|H]]; vm_compute in H; discriminate H.
  - exact (prepare_unique parse_sample sample_file "run-1" sample_header_unique).
Defined.

Lemma column_order_irrelevant_witness :
  prepare parse_sample reversed_file "run-1"
  = prepare parse_sample sample_file "run-1".
Proof.
  apply (column_order_irrelevant parse_sample sample_file reversed_file "run-1").
  - exact sample_header_unique.
  - reflexivity.
  - apply reverse_Permutation.
Defined.

Lemma duplicate_column_fails_witness :
  ((load_data parse_sample accept_all dup_birth_file "run-1" ready_world).1
   = inl ValueError_duplicate_keys
   ∧ db (load_data parse_sample accept_all dup_birth_file "run-1" ready_world).2
     = db ready_world)
  ∧ ((load_data parse_sample accept_all dup_name_file "run-1" ready_world).1
     = inl AttributeError_str
     ∧ db (load_data parse_sample accept_all dup_name_file "run-1" ready_world).2
       = db ready_world).
Proof.
  assert (H : ∀ cols : list string,
            "customer_name" ∈ cols → "address" ∈ cols → "birth_date" ∈ cols →
            ∀ c, c ∈ expected → c ∈ cols).
  { intros cols H1 H2 H3 c Hc. apply expected_elem in Hc.
    destruct Hc as [E|[E|E]]; subst c; assumption. }
  split.
  - apply (proj1 (duplicate_column_fails parse_sample accept_all dup_birth_file
                    "run-1" ready_world
                    ltac:(apply H; vm_compute; repeat constructor))).
    vm_compute. lia.
  - apply (proj2 (duplicate_column_fails parse_sample accept_all dup_name_file
                    "run-1" ready_world
                    ltac:(apply H; vm_compute; repeat constructor))).
    + vm_compute. reflexivity.
    + vm_compute. lia.
Defined.

(** ** Runs of the loader *)

Section RunProps.

Variable to_datetime : list value → value → option date.
Variable engine_accepts : list record → list record → bool.

Ltac load_split df run_id w :=
  rewrite ?(load_data_unfold to_datetime engine_accepts df run_id w);
  let Hp := fresh "Hp" in let Hr := fresh "Hr" in
  let Ht := fresh "Ht" in let Hok := fresh "Hok" in
  destruct (prepare to_datetime df run_id) as [?e|[|?r ?recs]] eqn:Hp;
  [ | | unfold single_batch; cbn [db logs];
        destruct (reachable (db w)) eqn:Hr;
        [ destruct (tables (db w) !! TARGET_TABLE) as [?t|] eqn:Ht;
          [ destruct (batch_ok engine_accepts (rows t) (r :: recs)) eqn:Hok | ] | ] ];
  cbn [fst snd db logs].

Lemma record_of_length df run_id i :
  List.length (record_of to_datetime df run_id i)
  = 3 + List.length (address_columns df).
Proof.
  unfold record_of, row_tuple. cbn [List.length].
  rewrite length_app, length_fmap. cbn [List.length].
  rewrite Nat.add_comm. reflexivity.
Qed.

Lemma load_success_rows df run_id w :
  (load_data to_datetime engine_accepts df run_id w).1 = inr () →
  prepare to_datetime df run_id = inr (records_of to_datetime df run_id)
  ∧ target_rows (db (load_data to_datetime engine_accepts df run_id w).2)
    = target_rows (db w) ++ records_of to_datetime df run_id.
Proof.
  load_split df run_id w; intros E; try discriminate E.
  - apply prepare_inr in Hp as [<- _]. by rewrite app_nil_r.
  - apply prepare_inr in Hp as [<- _]. split; [done|].
    rewrite (target_rows_committed _ _ t) by done.
    unfold target_rows. by rewrite Ht.
Qed.

(** X10. A run is all or nothing.  When [load_data] returns normally the
    destination table has gained exactly the prepared records, in order;
    when it raises, whatever the exception, every table is as it was
    before the run. *)
Theorem load_all_or_nothing df run_id w :
  ((load_data to_datetime engine_accepts df run_id w).1 = inr () →
   prepare to_datetime df run_id = inr (records_of to_datetime df run_id)
   ∧ target_rows (db (load_data to_datetime engine_accepts df run_id w).2)
     = target_rows (db w) ++ records_of to_datetime df run_id)
  ∧ (∀ e, (load_data to_datetime engine_accepts df run_id w).1 = inl e →
          tables (db (load_data to_datetime engine_accepts df run_id w).2)
          = tables (db w)).
Proof.
  split; [apply load_success_rows|].
  load_split df run_id w; intros e' E; try discriminate E; reflexivity.
Qed.

(** X11. When there are records to load and the server cannot be
    reached, [load_data] raises the driver's exception after logging the
    count, and the database is as it was.  When the server is reached
    but holds no destination table, the one [executemany] is refused and
    rolled back, and the tables are as they were. *)
Theorem load_environment_failures df run_id w recs :
  prepare to_datetime df run_id = inr recs →
  recs ≠ [] →
  (reachable (db w) = false →
   load_data to_datetime engine_accepts df run_id w
   = (inl pyodbc_connect_Error,
      {| db := db w;
         logs := logs w ++ [Loading_data; Missing_columns_check;
                            Prepared (List.length recs)] |}))
  ∧ (reachable (db w) = true →
     tables (db w) !! TARGET_TABLE = None →
     (load_data to_datetime engine_accepts df run_id w).1
     = inl pyodbc_executemany_Error
     ∧ tables (db (load_data to_datetime engine_accepts df run_id w).2)
       = tables (db w)
     ∧ calls (db (load_data to_datetime engine_accepts df run_id w).2)
       = calls (db w) ++ [Connect; Executemany recs; Exit_rollback]).
Proof.
  intros Hp Hne. rewrite !load_data_unfold, Hp.
  destruct recs as [|r recs]; [done|]. unfold single_batch. cbn [db logs].
  split.
  - by intros ->.
  - intros -> ->. cbn [fst snd db]. unfold end_rollback.
    cbn [tables called set_uncommitted calls]. by rewrite <- !app_assoc.
Qed.

(** X12. When line 63 gives the name address to more than one column,
    every record has more than four fields, the driver refuses them, and
    a run never adds a row to the table; it returns normally only when
    no row of the file survives cleaning. *)
Theorem duplicate_address_never_loads df run_id w :
  1 < List.length (address_columns df) →
  target_rows (db (load_data to_datetime engine_accepts df run_id w).2)
  = target_rows (db w)
  ∧ ((load_data to_datetime engine_accepts df run_id w).1 = inr () →
     prepare to_datetime df run_id = inr [])
  ∧ (∀ recs r, prepare to_datetime df run_id = inr recs → r ∈ recs →
               4 < List.length r).
Proof.
  intros Hk.
  assert (Hlen : ∀ recs r, prepare to_datetime df run_id = inr recs → r ∈ recs →
                           4 < List.length r).
  { intros recs r Hp Hr. apply prepare_inr in Hp as [-> _].
    apply elem_of_records_of in Hr as (i & -> & _).
    rewrite record_of_length. lia. }
  split; [|split; [|done]].
  - load_split df run_id w; try reflexivity.
    exfalso. pose proof (Hlen _ r eq_refl ltac:(left)) as H4.
    pose proof (batch_ok_arity engine_accepts _ _ r Hok ltac:(left)). lia.
  - load_split df run_id w; intros E; try discriminate E; try reflexivity.
    exfalso. pose proof (Hlen _ r eq_refl ltac:(left)) as H4.
    pose proof (batch_ok_arity engine_accepts _ _ r Hok ltac:(left)). lia.
Qed.

(** X13. Nothing is deduplicated: when two runs over the same file both
    return normally, the table has gained the records of the file twice,
    the second copy under the second run identifier. *)
Theorem rerun_appends_again df run1 run2 w :
  (load_data to_datetime engine_accepts df run1 w).1 = inr () →
  (load_data to_datetime engine_accepts df run2
     (load_data to_datetime engine_accepts df run1 w).2).1 = inr () →
  target_rows
    (db (load_data to_datetime engine_accepts df run2
           (load_data to_datetime engine_accepts df run1 w).2).2)
  = target_rows (db w)
    ++ records_of to_datetime df run1 ++ records_of to_datetime df run2
  ∧ List.length (records_of to_datetime df run2)
    = List.length (records_of to_datetime df run1).
Proof.
  intros H1 H2.
  destruct (load_success_rows df run1 w H1) as [_ E1].
  destruct (load_success_rows df run2 _ H2) as [_ E2].
  rewrite E2, E1, <- app_assoc. split; [done|].
  unfold records_of. by rewrite !length_fmap.
Qed.

(** X19. The driver calls of a run are one of three sequences: none at
    all; the connection, one [executemany] of all the records, the
    commit and the commit on leaving, when the run returns normally; or
    the connection, the refused [executemany] and the rollback.  So a
    run opens at most one connection, and only when there are records,
    and every transaction it opens is ended. *)
Theorem run_call_sequences df run_id w :
  ∃ new,
    calls (db (load_data to_datetime engine_accepts df run_id w).2)
    = calls (db w) ++ new
    ∧ (new = []
       ∨ ∃ recs,
           prepare to_datetime df run_id = inr recs ∧ recs ≠ []
           ∧ ((new = [Connect; Executemany recs; Commit; Exit_commit]
               ∧ (load_data to_datetime engine_accepts df run_id w).1 = inr ())
              ∨ (new = [Connect; Executemany recs; Exit_rollback]
                 ∧ (load_data to_datetime engine_accepts df run_id w).1
                   = inl pyodbc_executemany_Error))).
Proof.
  load_split df run_id w;
    try (exists []; rewrite app_nil_r; split; [reflexivity|by left]).
  - exists [Connect; Executemany (r :: recs); Commit; Exit_commit]. split.
    + cbn [end_commit called set_uncommitted calls]. by rewrite <- !app_assoc.
    + right. exists (r :: recs). split; [done|]. split; [done|]. by left.
  - exists [Connect; Executemany (r :: recs); Exit_rollback]. split.
    + unfold end_rollback. cbn [called set_uncommitted calls].
      by rewrite <- !app_assoc.
    + right. exists (r :: recs). split; [done|]. split; [done|]. by right.
  - exists [Connect; Executemany (r :: recs); Exit_rollback]. split.
    + unfold end_rollback. cbn [called set_uncommitted calls].
      by rewrite <- !app_assoc.
    + right. exists (r :: recs). split; [done|]. split; [done|]. by right.
Qed.

(** X20. The counts in the log are the number of rows added.  A run
    that returns normally has logged the two opening lines, the count
    of prepared records, and then the zero-record line when that count
    is 0, or else one progress line reading all of all and the closing
    line with the count; and the table has grown by that count. *)
Theorem log_counts_rows df run_id w :
  (load_data to_datetime engine_accepts df run_id w).1 = inr () →
  let n := List.length (records_of to_datetime df run_id) in
  logs (load_data to_datetime engine_accepts df run_id w).2
  = logs w ++ [Loading_data; Missing_columns_check; Prepared n]
    ++ match n with
       | 0 => [No_records]
       | S _ => [Inserted n n; Done n]
       end
  ∧ List.length (target_rows (db (load_data to_datetime engine_accepts df run_id w).2))
    = List.length (target_rows (db w)) + n.
Proof.
  intros E n.
  destruct (load_success_rows df run_id w E) as [Hp Hrows].
  split; [|by rewrite Hrows, length_app].
  revert E. rewrite load_data_unfold, Hp. subst n.
  destruct (records_of to_datetime df run_id) as [|r recs]; [done|].
  unfold single_batch. cbn [db logs].
  destruct (reachable (db w)); [|discriminate].
  destruct (tables (db w) !! TARGET_TABLE) as [t|]; [|discriminate].
  destruct (batch_ok engine_accepts (rows t) (r :: recs)); [|discriminate].
  intros _. cbn [snd logs List.length]. by rewrite <- app_assoc.
Qed.

End RunProps.

(** ** The batches *)

Section BatchProps.

Variable engine_accepts : list record → list record → bool.

Lemma batches_nth records :
  batches records
  = nth_batch records
      <$> seq 0 ((List.length records - 0 + (batch_size - 1)) `div` batch_size).
Proof.
  unfold batches, range. rewrite <- list_fmap_compose. by apply list_fmap_ext.
Qed.

Lemma concat_nth_batches records n :
  List.concat (nth_batch records <$> seq 0 n) = take (n * batch_size) records.
Proof.
  induction n as [|n IH]; [done|].
  rewrite seq_S, fmap_app, concat_app, IH. cbn [fmap list_fmap List.concat Nat.add].
  rewrite app_nil_r. apply nth_batch_take.
Qed.

Lemma nth_batch_length records k :
  List.length (nth_batch records k)
  = Nat.min batch_size (List.length records - k * batch_size).
Proof.
  unfold nth_batch, slice. rewrite length_take, length_drop. f_equal. lia.
Qed.

(** X14. The loop of lines 101 and 102 cuts the records into batches
    that, put end to end, are the records again: none is lost, repeated
    or moved.  No batch is empty and none has more than 50 records. *)
Theorem batches_partition records :
  List.concat (batches records) = records
  ∧ Forall (λ b, 0 < List.length b ≤ batch_size) (batches records).
Proof.
  clear engine_accepts. rewrite batches_nth. split.
  - rewrite concat_nth_batches. apply take_ge, batches_cover.
  - apply Forall_fmap, Forall_forall. intros k Hk.
    apply elem_of_seq in Hk as [_ Hk]. apply batches_lt_inv in Hk.
    unfold compose. rewrite nth_batch_length. unfold batch_size in *. lia.
Qed.

Lemma batch_calls_batches records :
  batch_calls records
    ((List.length records - 0 + (batch_size - 1)) `div` batch_size)
  = flat_map (λ b, [Executemany b; Commit]) (batches records).
Proof.
  unfold batch_calls. rewrite batches_nth.
  induction (seq 0 _) as [|k ks IH]; [done|]. cbn. by rewrite IH.
Qed.

(** X15. When the server is reachable, the table is there and the engine
    takes every batch, [insert_records] returns normally, the table has
    gained all the records in order, and the calls made are the
    connection, then for each batch in turn one [executemany] and one
    commit, then the commit on leaving. *)
Theorem all_batches_loaded records w t :
  reachable (db w) = true →
  tables (db w) !! TARGET_TABLE = Some t →
  (∀ j, j * batch_size < List.length records →
     batch_ok engine_accepts (rows t ++ take (j * batch_size) records)
       (nth_batch records j) = true) →
  (insert_records engine_accepts records w).1 = inr ()
  ∧ target_rows (db (insert_records engine_accepts records w).2)
    = rows t ++ records
  ∧ calls (db (insert_records engine_accepts records w).2)
    = calls (db w) ++ [Connect]
      ++ flat_map (λ b, [Executemany b; Commit]) (batches records)
      ++ [Exit_commit].
Proof.
  intros Hr Ht Hok.
  destruct (insert_records_all_ok engine_accepts records w t Hr Ht Hok)
    as (E1 & E2 & E3).
  rewrite batch_calls_batches in E3. done.
Qed.

End BatchProps.

(** ** The schema ensurer and the DAG *)

Lemma create_table_unfold w :
  create_table_if_missed w
  = if reachable (db w) then
      (inr (),
       match tables (db w) !! TARGET_TABLE with
       | Some _ =>
           {| db := called Execute_create_if_missing
                      (called Connect (set_uncommitted [] (db w)));
              logs := logs w |}
       | None =>
           {| db := {| reachable := true;
                       tables := <[TARGET_TABLE :=
                                    {| schema := target_schema; rows := [] |}]>
                                   (tables (db w));
                       uncommitted := [];
                       ddl_executed := S (ddl_executed (db w));
                       calls := (calls (db w) ++ [Connect])
                                ++ [Execute_create_if_missing] |};
              logs := logs w |}
       end)
    else (inl pyodbc_connect_Error, w).
Proof.
  unfold create_table_if_missed, with_connection, connect,
    execute_create_if_missing, get_db, put_db, raise, mbind, M_bind.
  destruct (reachable (db w)) eqn:Hr; [|done].
  cbn [db logs tables called set_uncommitted].
  destruct (tables (db w) !! TARGET_TABLE); cbn; by rewrite ?Hr.
Qed.

(** X16. [create_table_if_missed] touches no data.  When the server
    cannot be reached it raises the driver's exception and nothing has
    changed.  Otherwise it makes two driver calls, the connection and
    the statement, with no commit and no rollback; every other table is
    as it was, the destination table has the rows it had, none if it has
    just been created, and nothing is logged. *)
Theorem create_table_effects w :
  (reachable (db w) = false →
   create_table_if_missed w = (inl pyodbc_connect_Error, w))
  ∧ (reachable (db w) = true →
     (∀ name, name ≠ TARGET_TABLE →
        tables (db (create_table_if_missed w).2) !! name = tables (db w) !! name)
     ∧ is_Some (tables (db (create_table_if_missed w).2) !! TARGET_TABLE)
     ∧ target_rows (db (create_table_if_missed w).2) = target_rows (db w)
     ∧ calls (db (create_table_if_missed w).2)
       = calls (db w) ++ [Connect; Execute_create_if_missing]
     ∧ logs (create_table_if_missed w).2 = logs w
     ∧ reachable (db (create_table_if_missed w).2) = true).
Proof.
  rewrite create_table_unfold. split; intros Hr; rewrite Hr; [done|].
  cbn [snd]. unfold target_rows.
  destruct (tables (db w) !! TARGET_TABLE) as [t|] eqn:Ht;
    cbn [db logs tables calls called set_uncommitted reachable].
  - rewrite Ht. repeat split; try done. by rewrite <- app_assoc.
  - rewrite lookup_insert_eq. repeat split; try done.
    + intros name Hn. by rewrite lookup_insert_ne.
    + by rewrite <- app_assoc.
Qed.

Section DagProps.

Variable to_datetime : list value → value → option date.
Variable engine_accepts : list record → list record → bool.

(** X17. The loader runs only after the schema ensurer has returned:
    when the server cannot be reached the DAG run raises the exception
    of the first task, and nothing is logged and nothing has changed. *)
Theorem dag_stops_at_create df run_id w :
  reachable (db w) = false →
  dag_run to_datetime engine_accepts df run_id w = (inl pyodbc_connect_Error, w).
Proof.
  intros Hr. unfold dag_run, mbind, M_bind.
  by rewrite create_table_unfold, Hr.
Qed.

Lemma load_data_ready df run_id w t :
  reachable (db w) = true →
  tables (db w) !! TARGET_TABLE = Some t →
  unique_header df →
  batch_ok engine_accepts (rows t) (records_of to_datetime df run_id) = true →
  (load_data to_datetime engine_accepts df run_id w).1 = inr ()
  ∧ target_rows (db (load_data to_datetime engine_accepts df run_id w).2)
    = rows t ++ records_of to_datetime df run_id.
Proof.
  intros Hr Ht Hu Hok.
  rewrite load_data_unfold, (prepare_unique to_datetime df run_id Hu).
  destruct (records_of to_datetime df run_id) as [|r recs].
  - cbn [fst snd db]. unfold target_rows. by rewrite Ht, app_nil_r.
  - unfold single_batch. cbn [db logs]. rewrite Hr, Ht, Hok. cbn [fst snd db].
    by rewrite (target_rows_committed _ _ t).
Qed.

(** X18. The two tasks compose: on a reachable server, whether or not
    the destination table exists beforehand, a DAG run over a file whose
    header names each required column once returns normally and leaves
    the table holding the rows it had followed by the prepared records,
    provided the engine takes the batch. *)
Theorem dag_run_loads df run_id w :
  reachable (db w) = true →
  unique_header df →
  batch_ok engine_accepts (target_rows (db w))
    (records_of to_datetime df run_id) = true →
  (dag_run to_datetime engine_accepts df run_id w).1 = inr ()
  ∧ target_rows (db (dag_run to_datetime engine_accepts df run_id w).2)
    = target_rows (db w) ++ records_of to_datetime df run_id.
Proof.
  intros Hr Hu Hok. unfold dag_run, mbind, M_bind.
  rewrite create_table_unfold, Hr. unfold target_rows in *.
  destruct (tables (db w) !! TARGET_TABLE) as [t|] eqn:Ht.
  - apply (load_data_ready df run_id _ t);
      [cbn; exact Hr|cbn; exact Ht|exact Hu|exact Hok].
  - apply (load_data_ready df run_id _ {| schema := target_schema; rows := [] |});
      [reflexivity|cbn; by rewrite lookup_insert_eq|exact Hu|exact Hok].
Qed.

End DagProps.

(** * The further properties at sample inputs *)

Lemma load_all_or_nothing_witness :
  prepare parse_sample big_file "run-1"
  = inr (records_of parse_sample big_file "run-1")
  ∧ target_rows (db (load_data parse_sample accept_all big_file "run-1" ready_world).2)
    = target_rows (db ready_world) ++ records_of parse_sample big_file "run-1".
Proof.
  apply (proj1 (load_all_or_nothing parse_sample accept_all big_file "run-1"
                  ready_world)).
  vm_compute. reflexivity.
Defined.

Lemma load_environment_failures_witness :
  load_data parse_sample accept_all sample_file "run-1" down_world
  = (inl pyodbc_connect_Error,
     {| db := db down_world;
        logs := logs down_world
                ++ [Loading_data; Missing_columns_check;
                    Prepared (List.length (records_of parse_sample sample_file "run-1"))] |}).
Proof.
  apply (proj1 (load_environment_failures parse_sample accept_all sample_file
                  "run-1" down_world (records_of parse_sample sample_file "run-1")
                  (prepare_unique parse_sample sample_file "run-1" sample_header_unique)
                  ltac:(vm_compute; discriminate))).
  reflexivity.
Defined.

Lemma duplicate_address_never_loads_witness :
  target_rows (db (load_data parse_sample accept_all dup_address_file "run-1" ready_world).2)
  = target_rows (db ready_world)
  ∧ ((load_data parse_sample accept_all dup_address_file "run-1" ready_world).1 = inr () →
     prepare parse_sample dup_address_file "run-1" = inr [])
  ∧ (∀ recs r, prepare parse_sample dup_address_file "run-1" = inr recs → r ∈ recs →
               4 < List.length r).
Proof.
  apply (duplicate_address_never_loads parse_sample accept_all dup_address_file
           "run-1" ready_world).
  vm_compute. lia.
Defined.

Lemma rerun_appends_again_witness :
  target_rows
    (db (load_data parse_sample accept_all sample_file "run-2"
           (load_data parse_sample accept_all sample_file "run-1" ready_world).2).2)
  = target_rows (db ready_world)
    ++ records_of parse_sample sample_file "run-1"
    ++ records_of parse_sample sample_file "run-2"
  ∧ List.length (records_of parse_sample sample_file "run-2")
    = List.length (records_of parse_sample sample_file "run-1").
Proof.
  apply (rerun_appends_again parse_sample accept_all sample_file "run-1" "run-2"
           ready_world); vm_compute; reflexivity.
Defined.

Lemma all_batches_loaded_witness :
  (insert_records accept_all sixty_records ready_world).1 = inr ()
  ∧ target_rows (db (insert_records accept_all sixty_records ready_world).2)
    = [] ++ sixty_records
  ∧ calls (db (insert_records accept_all sixty_records ready_world).2)
    = calls (db ready_world) ++ [Connect]
      ++ flat_map (λ b, [Executemany b; Commit]) (batches sixty_records)
      ++ [Exit_commit].
Proof.
  apply (all_batches_loaded accept_all sixty_records ready_world
           {| schema := target_schema; rows := [] |}).
  - reflexivity.
  - vm_compute. reflexivity.
  - intros j Hj. unfold batch_ok, accept_all. rewrite andb_true_r.
    apply forallb_forall. intros r Hr. apply Nat.eqb_eq.
    unfold nth_batch, slice in Hr.
    apply list_elem_of_In, subseteq_take, subseteq_drop in Hr.
    unfold sixty_records in Hr. by apply elem_of_replicate in Hr as [-> _].
Defined.

Lemma create_table_effects_witness :
  create_table_if_missed down_world = (inl pyodbc_connect_Error, down_world)
  ∧ target_rows (db (create_table_if_missed ready_world).2)
    = target_rows (db ready_world).
Proof.
  split.
  - apply (proj1 (create_table_effects down_world)). reflexivity.
  - destruct (proj2 (create_table_effects ready_world) eq_refl)
      as (_ & _ & H & _).
    exact H.
Defined.

Lemma dag_stops_at_create_witness :
  dag_run parse_sample accept_all sample_file "run-1" down_world
  = (inl pyodbc_connect_Error, down_world).
Proof.
  apply (dag_stops_at_create parse_sample accept_all sample_file "run-1" down_world).
  reflexivity.
Defined.

Lemma dag_run_loads_witness :
  (dag_run parse_sample accept_all sample_file "run-1" fresh_world).1 = inr ()
  ∧ target_rows (db (dag_run parse_sample accept_all sample_file "run-1" fresh_world).2)
    = target_rows (db fresh_world) ++ records_of parse_sample sample_file "run-1".
Proof.
  apply (dag_run_loads parse_sample accept_all sample_file "run-1" fresh_world).
  - reflexivity.
  - exact sample_header_unique.
  - vm_compute. reflexivity.
Defined.

Lemma log_counts_rows_witness :
  logs (load_data parse_sample accept_all sample_file "run-1" ready_world).2
  = logs ready_world ++ [Loading_data; Missing_columns_check; Prepared 3]
    ++ [Inserted 3 3; Done 3]
  ∧ List.length (target_rows (db (load_data parse_sample accept_all sample_file
                                    "run-1" ready_world).2))
    = List.length (target_rows (db ready_world)) + 3.
Proof.
  apply (log_counts_rows parse_sample accept_all sample_file "run-1" ready_world).
  vm_compute. reflexivity.
Defined.
